(** * Website checker bot (bottggame.py): a shallow embedding and its properties

    The bot is a sequence of calls to external collaborators (the chat
    transport, an HTTP client, DNS, WHOIS, a headless browser, an image
    library, the file system) glued with [try]/[except].  The embedding keeps
    that shape: every handler is a computation in a small state-and-exception
    monad, every external call asks an oracle (the [World]) for its outcome and
    appends an [Event] to the trace, and the file system and the set of running
    browsers are explicit state. *)

From Stdlib Require Import ZArith Lia Ascii String.
From Stdlib Require Import Floats.PrimFloat Floats.FloatOps Floats.SpecFloat.
From Stdlib Require Import Numbers.Cyclic.Int63.Uint63.
From stdpp Require Import base option list gmap strings pretty.

Local Open Scope Z_scope.
Local Open Scope string_scope.

(** ** Python strings

    A Python [str] is modelled by [string] (its UTF-8 bytes).  Every prefix and
    separator the program uses is ASCII, so [startswith], [split] and the slice
    [s[5:]] taken after a successful 5-character ASCII prefix test agree with
    their byte-level versions. *)

Module PyStr.

Definition startswith (s pre : string) : bool := String.prefix pre s.

(** [s.startswith((p1, p2, ...))] *)
Definition startswith_any (s : string) (pres : list string) : bool :=
  existsb (startswith s) pres.

(** [s[n:]] *)
Fixpoint slice_from (n : nat) (s : string) : string :=
  match n, s with
  | O, _ => s
  | S _, EmptyString => EmptyString
  | S k, String _ s' => slice_from k s'
  end.

(** [s.split(sep)] for a non-empty [sep]: non-overlapping occurrences, left
    to right.  [skip] counts the characters of a separator that has just been
    matched and is still to be consumed; [acc] is the current piece. *)
Fixpoint split_go (sep : string) (skip : nat) (acc : string) (s : string)
  : list string :=
  match s with
  | EmptyString => [acc]
  | String c s' =>
      match skip with
      | S k => split_go sep k acc s'
      | O =>
          if String.prefix sep s
          then acc :: split_go sep (String.length sep - 1) "" s'
          else split_go sep 0 (acc +:+ String c "") s'
      end
  end.

Definition split (s sep : string) : list string := split_go sep 0 "" s.

(** [l[-1]] and [l[0]] on the result of a [split], which is never empty. *)
Definition last_piece (l : list string) : string := List.last l "".
Definition first_piece (l : list string) : string := List.hd "" l.

End PyStr.

(** ** Python values that end up in the info dictionary *)

Local Set Warnings "-register-all".

Inductive pyval :=
| VNone
| VInt (z : Z)
| VStr (s : string)
| VOther (shown : string)
    (* any other object (a datetime, ...); [shown] is what [str()] gives *)
| VList (items : list pyval) (shown : string).
    (* a list; [shown] is what [str()] gives *)

(** [str(v)], as the f-strings of the handlers apply it. *)
Definition py_str (v : pyval) : string :=
  match v with
  | VNone => "None"
  | VInt z => pretty z
  | VStr s => s
  | VOther shown => shown
  | VList _ shown => shown
  end.

(** ** Images and the resize arithmetic (binary64, as Python floats) *)

Record Image := mkImage { width : Z; height : Z }.

(** What a file on local storage holds: a picture, or what is left of one when
    a write was cut short. *)
Inductive Content :=
| Picture (img : Image)
| Damaged.

Coercion Picture : Image >-> Content.

Module PyFloat.

(** [float(z)] for the pixel counts that occur (exact below 2^53). *)
Definition of_int (z : Z) : float := PrimFloat.of_uint63 (Uint63.of_Z z).

(** [int(f)]: truncation toward zero of a finite float. *)
Definition to_int (f : float) : Z :=
  match Prim2SF f with
  | S754_finite sg m e =>
      let a := match e with
               | Z0 => Zpos m
               | Zpos p => Z.shiftl (Zpos m) (Zpos p)
               | Zneg p => Z.shiftr (Zpos m) (Zpos p)
               end in
      if sg then - a else a
  | _ => 0
  end.

End PyFloat.

(** [ratio = 1280 / img.size[0]] *)
Definition ratio (img : Image) : float :=
  PrimFloat.div (PyFloat.of_int 1280) (PyFloat.of_int (width img)).

(** [new_size = (1280, int(img.size[1] * ratio))] *)
Definition new_size (img : Image) : Z * Z :=
  (1280, PyFloat.to_int (PrimFloat.mul (PyFloat.of_int (height img)) (ratio img))).

(** [Image.LANCZOS] and the other resampling filters of the image library. *)
Inductive Resample := NEAREST | BILINEAR | BICUBIC | LANCZOS.

(** ** Exceptions *)

(** An exception is identified with its message, [str(e)].  Only exceptions
    below [Exception] are modelled, which is what [except Exception] and the
    bare [except] of the source both catch. *)
Definition exn := string.

Inductive Res (A : Type) :=
| Ok (a : A)
| Raise (e : exn).
Arguments Ok {A} a.
Arguments Raise {A} e.

Definition AttributeError (attr : string) : exn :=
  "'NoneType' object has no attribute '" +:+ attr +:+ "'".
Definition IndexError : exn := "list index out of range".
Definition FileNotFoundError (path : string) : exn :=
  "[Errno 2] No such file or directory: '" +:+ path +:+ "'".
Definition UnidentifiedImageError (path : string) : exn :=
  "cannot identify image file '" +:+ path +:+ "'".

(** ** Data of the external collaborators *)

(** What [whois.whois(domain)] returns: its truth value (for [if domain_info])
    and the three attributes the program reads. *)
Record WhoisEntry := mkWhois {
  truthy : bool;
  registrar : pyval;
  creation_date : pyval;
  expiration_date : pyval
}.

Record InlineKeyboardButton := mkButton {
  label : string;
  callback_data : string
}.

(** [InlineKeyboardMarkup]: rows of buttons. *)
Definition Markup := list (list InlineKeyboardButton).

Record Message := mkMessage { text : string }.
Record CallbackQuery := mkQuery { data : string }.

(** A transport update.  [message] is the update's own message field: it is
    present for a command or a text message and absent for a button press,
    whose payload arrives in [callback_query]. *)
Record Update := mkUpdate {
  effective_user : option Z;
  message : option Message;
  callback_query : option CallbackQuery
}.

(** ** Events, the world and the state *)

(** One event per call that leaves the program, with its outcome. *)
Inductive Event :=
| EvHttpGet (url : string) (r : Res (Z * Z))       (* status code, elapsed ms *)
| EvDns (domain : string) (r : Res string)         (* resolved address *)
| EvWhois (domain : string) (r : Res WhoisEntry)
| EvLaunch (r : Res unit)
| EvNavigate (url : string) (r : Res unit)
| EvSleep (seconds : Z)
| EvSaveScreenshot (path : string) (r : Res (option Image))
| EvQuit (r : Res unit)
| EvImageOpen (path : string) (r : Res Image)
| EvResize (size : Z * Z) (filter : Resample) (r : Res unit)
| EvImageSave (path : string) (r : Res unit)
| EvOpenFile (path : string) (r : Res unit)
| EvRemove (path : string) (r : Res unit)
| EvReplyText (body : string) (markup : option Markup) (r : Res unit)
| EvReplyPhoto (path caption : string) (markup : Markup) (r : Res unit)
| EvDeleteMessage (r : Res unit)
| EvEditText (body : string) (r : Res unit)
| EvAnswer (r : Res unit)
| EvEditCaption (caption : string) (markup : Markup) (r : Res unit).

(** The oracle: what each collaborator answers, given everything that happened
    so far.  For the three file operations the oracle only says whether the
    call fails for a reason other than a missing file. *)
Record World := mkWorld {
  w_http_get : list Event -> string -> Res (Z * Z);
  w_dns : list Event -> string -> Res string;
  w_whois : list Event -> string -> Res WhoisEntry;
  w_launch : list Event -> Res unit;
  w_navigate : list Event -> string -> Res unit;
  (* [Ok (Some img)]: the capture was written; [Ok None]: the driver swallowed
     an I/O error, wrote nothing and returned False *)
  w_save_screenshot : list Event -> string -> Res (option Image);
  w_quit : list Event -> Res unit;
  w_image_open : list Event -> string -> option exn;
  w_resize : list Event -> Z * Z -> Resample -> Res unit;
  w_image_save : list Event -> string -> Res unit;
  (* whether a save that raises had already opened, and so cut short, its target *)
  w_save_truncates : list Event -> string -> bool;
  w_open_file : list Event -> string -> option exn;
  w_remove : list Event -> string -> option exn;
  w_reply_text : list Event -> string -> option Markup -> Res unit;
  w_reply_photo : list Event -> string -> string -> Markup -> Res unit;
  w_delete_message : list Event -> Res unit;
  w_edit_text : list Event -> string -> Res unit;
  w_answer : list Event -> Res unit;
  w_edit_caption : list Event -> string -> Markup -> Res unit
}.

Record State := mkState {
  trace : list Event;            (* the calls made so far, oldest first *)
  files : gmap string Content;   (* the files on local storage *)
  browsers : nat                 (* browser instances launched and not quit *)
}.

(** ** The monad: reader of the world, state, exceptions *)

Definition M (A : Type) : Type := World -> State -> Res A * State.

Definition ret {A} (a : A) : M A := fun _ st => (Ok a, st).

Definition bind {A B} (m : M A) (k : A -> M B) : M B :=
  fun W st =>
    match m W st with
    | (Ok a, st') => k a W st'
    | (Raise e, st') => (Raise e, st')
    end.

Definition raise {A} (e : exn) : M A := fun _ st => (Raise e, st).

(** [try: m  except Exception as e: h e] *)
Definition try_except {A} (m : M A) (h : exn -> M A) : M A :=
  fun W st =>
    match m W st with
    | (Ok a, st') => (Ok a, st')
    | (Raise e, st') => h e W st'
    end.

Declare Scope py_scope.
Delimit Scope py_scope with py.
Notation "'let*' x ':=' m 'in' k" := (bind m (fun x => k))
  (at level 10, x pattern, m at level 100, k at level 200) : py_scope.
Notation "m ;; k" := (bind m (fun _ => k))
  (at level 100, k at level 200, right associativity) : py_scope.
Local Open Scope py_scope.

(** Lift a pure computation that may raise. *)
Definition lift {A} (r : Res A) : M A := fun _ st => (r, st).

(** Ask the oracle and log the call. *)
Definition ask {A} (oracle : World -> list Event -> Res A)
    (ev : Res A -> Event) : M A :=
  fun W st =>
    let r := oracle W (trace st) in
    (r, mkState (trace st ++ [ev r]) (files st) (browsers st)).

Definition events_since (st st' : State) : list Event :=
  drop (length (trace st)) (trace st').

(** [failed ev]: the call raised. *)
Definition is_raise {A} (r : Res A) : bool :=
  match r with Ok _ => false | Raise _ => true end.

Definition failed (ev : Event) : bool :=
  match ev with
  | EvHttpGet _ r => is_raise r
  | EvDns _ r => is_raise r
  | EvWhois _ r => is_raise r
  | EvLaunch r => is_raise r
  | EvNavigate _ r => is_raise r
  | EvSleep _ => false
  | EvSaveScreenshot _ r => is_raise r
  | EvQuit r => is_raise r
  | EvImageOpen _ r => is_raise r
  | EvResize _ _ r => is_raise r
  | EvImageSave _ r => is_raise r
  | EvOpenFile _ r => is_raise r
  | EvRemove _ r => is_raise r
  | EvReplyText _ _ r => is_raise r
  | EvReplyPhoto _ _ _ r => is_raise r
  | EvDeleteMessage r => is_raise r
  | EvEditText _ r => is_raise r
  | EvAnswer r => is_raise r
  | EvEditCaption _ _ r => is_raise r
  end.

(** ** The external calls *)

Module Ext.

(** [requests.get(url, timeout=10)] with the elapsed time around it *)
Definition http_get (url : string) : M (Z * Z) :=
  ask (fun W tr => w_http_get W tr url) (EvHttpGet url).

(** [socket.gethostbyname(domain)] *)
Definition gethostbyname (domain : string) : M string :=
  ask (fun W tr => w_dns W tr domain) (EvDns domain).

(** [whois.whois(domain)] *)
Definition whois (domain : string) : M WhoisEntry :=
  ask (fun W tr => w_whois W tr domain) (EvWhois domain).

(** [webdriver.Chrome(options=chrome_options)]: one more browser runs. *)
Definition chrome_launch : M unit :=
  fun W st =>
    let r := w_launch W (trace st) in
    (r, mkState (trace st ++ [EvLaunch r]) (files st)
          (match r with Ok _ => S (browsers st) | Raise _ => browsers st end)).

(** [driver.get(url)] *)
Definition driver_get (url : string) : M unit :=
  ask (fun W tr => w_navigate W tr url) (EvNavigate url).

(** [time.sleep(seconds)] *)
Definition sleep (seconds : Z) : M unit :=
  fun _ st => (Ok tt, mkState (trace st ++ [EvSleep seconds]) (files st) (browsers st)).

(** [driver.save_screenshot(path)]; the returned flag is ignored by the caller. *)
Definition save_screenshot (path : string) : M unit :=
  fun W st =>
    let r := w_save_screenshot W (trace st) path in
    let tr := (trace st ++ [EvSaveScreenshot path r])%list in
    match r with
    | Ok (Some img) =>
        (Ok tt, mkState tr (<[path := Picture img]> (files st)) (browsers st))
    | Ok None => (Ok tt, mkState tr (files st) (browsers st))
    | Raise e => (Raise e, mkState tr (files st) (browsers st))
    end.

(** [driver.quit()]: one browser fewer. *)
Definition driver_quit : M unit :=
  fun W st =>
    let r := w_quit W (trace st) in
    (r, mkState (trace st ++ [EvQuit r]) (files st)
          (match r with Ok _ => Nat.pred (browsers st) | Raise _ => browsers st end)).

(** Outcome of a call that needs [path] to exist. *)
Definition on_file {A} (st : State) (path : string) (fault : option exn)
    (k : Content -> Res A) : Res A :=
  match files st !! path with
  | None => Raise (FileNotFoundError path)
  | Some c => match fault with Some e => Raise e | None => k c end
  end.

(** [Image.open(path)]: the file must hold a picture. *)
Definition image_open (path : string) : M Image :=
  fun W st =>
    let r := on_file st path (w_image_open W (trace st) path)
               (fun c => match c with
                         | Picture img => Ok img
                         | Damaged => Raise (UnidentifiedImageError path)
                         end) in
    (r, mkState (trace st ++ [EvImageOpen path r]) (files st) (browsers st)).

(** [img.resize(size, filter)] *)
Definition image_resize (size : Z * Z) (filter : Resample) : M Image :=
  fun W st =>
    let r := w_resize W (trace st) size filter in
    (match r with Ok _ => Ok (mkImage (fst size) (snd size)) | Raise e => Raise e end,
     mkState (trace st ++ [EvResize size filter r]) (files st) (browsers st)).

(** [img.save(path)]: the target is opened for writing before the image is
    encoded, so a save that raises may leave it cut short. *)
Definition image_save (img : Image) (path : string) : M unit :=
  fun W st =>
    let r := w_image_save W (trace st) path in
    (r, mkState (trace st ++ [EvImageSave path r])
          (match r with
           | Ok _ => <[path := Picture img]> (files st)
           | Raise _ =>
               if w_save_truncates W (trace st) path
               then <[path := Damaged]> (files st)
               else files st
           end)
          (browsers st)).

(** [open(path, 'rb')] *)
Definition open_file (path : string) : M unit :=
  fun W st =>
    let r := on_file st path (w_open_file W (trace st) path) (fun _ => Ok tt) in
    (r, mkState (trace st ++ [EvOpenFile path r]) (files st) (browsers st)).

(** [os.remove(path)] *)
Definition os_remove (path : string) : M unit :=
  fun W st =>
    let r := on_file st path (w_remove W (trace st) path) (fun _ => Ok tt) in
    (r, mkState (trace st ++ [EvRemove path r])
          (match r with Ok _ => delete path (files st) | Raise _ => files st end)
          (browsers st)).

(** [message.reply_text(body, reply_markup=markup)] *)
Definition reply_text (body : string) (markup : option Markup) : M unit :=
  ask (fun W tr => w_reply_text W tr body markup) (EvReplyText body markup).

(** [message.reply_photo(photo=<path>, caption=..., reply_markup=...)] *)
Definition reply_photo (path caption : string) (markup : Markup) : M unit :=
  ask (fun W tr => w_reply_photo W tr path caption markup)
      (EvReplyPhoto path caption markup).

(** [processing_msg.delete()] *)
Definition delete_message : M unit :=
  ask (fun W tr => w_delete_message W tr) EvDeleteMessage.

(** [processing_msg.edit_text(body)] *)
Definition edit_text (body : string) : M unit :=
  ask (fun W tr => w_edit_text W tr body) (EvEditText body).

(** [query.answer()] *)
Definition answer : M unit := ask (fun W tr => w_answer W tr) EvAnswer.

(** [query.edit_message_caption(caption=..., reply_markup=...)] *)
Definition edit_message_caption (caption : string) (markup : Markup) : M unit :=
  ask (fun W tr => w_edit_caption W tr caption markup) (EvEditCaption caption markup).

End Ext.

(** ** The program *)

Definition nl : string := String "010"%char EmptyString.

Definition ALLOWED_USERS : list Z := [123456789; 987654321].

Definition rejection_text : string :=
  "Sorry, you are not authorized to use this bot.".

Definition welcome_text : string :=
  "Welcome to the Website Checker Bot!" +:+ nl +:+
  "Send me a website URL to check its availability and get detailed information.".

(** [update.message.reply_text(...)]: an attribute access on [update.message]
    first, which is [None] when the update carries no message. *)
Definition message_reply_text (update : Update) (body : string)
    (markup : option Markup) : M unit :=
  match message update with
  | None => raise (AttributeError "reply_text")
  | Some _ => Ext.reply_text body markup
  end.

Definition check_auth (update : Update) : M bool :=
  match effective_user update with
  | None => raise (AttributeError "id")
  | Some user_id =>
      if negb (bool_decide (user_id ∈ ALLOWED_USERS)) then
        message_reply_text update rejection_text None ;;
        ret false
      else ret true
  end.

Definition start (update : Update) : M unit :=
  let* ok := check_auth update in
  if negb ok then ret tt else
  message_reply_text update welcome_text None.

(** [info.get(key, 'N/A')] rendered by an f-string *)
Definition get_or_na (info : gmap string pyval) (key : string) : string :=
  py_str (default (VStr "N/A") (info !! key)).

(** [url.split("//")[-1].split("/")[0]] *)
Definition domain_of (url : string) : string :=
  PyStr.first_piece (PyStr.split (PyStr.last_piece (PyStr.split url "//")) "/").

(** [x[0]] *)
Definition index0 (items : list pyval) : Res pyval :=
  match items with
  | [] => Raise IndexError
  | x :: _ => Ok x
  end.

(** [domain_info.registrar if domain_info else "N/A"] *)
Definition registrar_field (domain_info : option WhoisEntry) : pyval :=
  match domain_info with
  | Some d => if truthy d then registrar d else VStr "N/A"
  | None => VStr "N/A"
  end.

(** [d.attr[0] if domain_info and isinstance(d.attr, list)
     else d.attr if domain_info else "N/A"] *)
Definition date_field (domain_info : option WhoisEntry)
    (attr : WhoisEntry -> pyval) : Res pyval :=
  match domain_info with
  | Some d =>
      if truthy d then
        match attr d with
        | VList items _ => index0 items
        | v => Ok v
        end
      else Ok (VStr "N/A")
  | None => Ok (VStr "N/A")
  end.

Definition get_website_info (url : string) : M (gmap string pyval) :=
  try_except
    (let* (status_code, response_time) := Ext.http_get url in
     let domain := domain_of url in
     let* ip := Ext.gethostbyname domain in
     let* domain_info :=
       try_except (let* d := Ext.whois domain in ret (Some d))
                  (fun _ => ret None) in
     let* created := lift (date_field domain_info creation_date) in
     let* expires := lift (date_field domain_info expiration_date) in
     ret ({[ "status" := VInt status_code;
             "response_time" := VInt response_time;
             "ip" := VStr ip;
             "domain" := VStr domain;
             "registrar" := registrar_field domain_info;
             "creation_date" := created;
             "expiration_date" := expires ]} : gmap string pyval))
    (fun e => ret ({[ "error" := VStr e ]} : gmap string pyval)).

Definition screenshot_path : string := "screenshot.png".

(** The body of [with Image.open(screenshot_path) as img: ...] *)
Definition resize_if_too_large (path : string) : M unit :=
  let* img := Ext.image_open path in
  if (1280 <? width img)%Z then
    let* img' := Ext.image_resize (new_size img) LANCZOS in
    Ext.image_save img' path
  else ret tt.

Definition take_screenshot (url : string) : M (option string) :=
  try_except
    (Ext.chrome_launch ;;
     Ext.driver_get url ;;
     Ext.sleep 2 ;;
     Ext.save_screenshot screenshot_path ;;
     Ext.driver_quit ;;
     resize_if_too_large screenshot_path ;;
     ret (Some screenshot_path))
    (fun _ => ret None).

(** *** Button payloads: ["<tag>_<url>"] *)

Inductive Tag := More | Back.

Definition tag_prefix (t : Tag) : string :=
  match t with More => "more_" | Back => "back_" end.

(** [f"more_{url}"], [f"back_{url}"] *)
Definition encode_payload (t : Tag) (url : string) : string :=
  tag_prefix t +:+ url.

(** The [if data.startswith("more_") ... elif data.startswith("back_") ...]
    dispatch of [button_callback], with [url = data[5:]] in both branches. *)
Definition decode_payload (data : string) : option (Tag * string) :=
  if PyStr.startswith data "more_" then Some (More, PyStr.slice_from 5 data)
  else if PyStr.startswith data "back_" then Some (Back, PyStr.slice_from 5 data)
  else None.

Definition more_button (url : string) : InlineKeyboardButton :=
  mkButton "More Info ℹ️" (encode_payload More url).

Definition back_button (url : string) : InlineKeyboardButton :=
  mkButton "Back 🔙" (encode_payload Back url).

(** *** The two views *)

(** [response_text] of [handle_url], [basic_info] of [button_callback] *)
Definition summary_text (url : string) (info : gmap string pyval) : string :=
  "🌐 Website: " +:+ url +:+ nl +:+
  "⏱ Response Time: " +:+ get_or_na info "response_time" +:+ "ms" +:+ nl +:+
  "📊 Status: " +:+ get_or_na info "status" +:+ nl.

(** [detailed_info] of [button_callback] *)
Definition detail_text (url : string) (info : gmap string pyval) : string :=
  "🌐 Detailed Information for " +:+ url +:+ nl +:+ nl +:+
  "🔍 IP Address: " +:+ get_or_na info "ip" +:+ nl +:+
  "🏢 Registrar: " +:+ get_or_na info "registrar" +:+ nl +:+
  "📅 Created: " +:+ get_or_na info "creation_date" +:+ nl +:+
  "⌛ Expires: " +:+ get_or_na info "expiration_date" +:+ nl.

(** *** The text-message handler *)

Definition normalize_url (text : string) : string :=
  if PyStr.startswith_any text ["http://"; "https://"] then text
  else "https://" +:+ text.

Definition processing_text : string := "Processing your request...".

Definition no_screenshot_note : string := nl +:+ "❌ Could not generate screenshot".

(** [update.message.text] *)
Definition message_text (update : Update) : M string :=
  match message update with
  | None => raise (AttributeError "text")
  | Some m => ret (text m)
  end.

Definition handle_url (update : Update) : M unit :=
  let* ok := check_auth update in
  if negb ok then ret tt else
  let* text := message_text update in
  let url := normalize_url text in
  message_reply_text update processing_text None ;;
  try_except
    (let* info := get_website_info url in
     let* screenshot := take_screenshot url in
     let response_text := summary_text url info in
     let reply_markup := [[more_button url]] in
     Ext.delete_message ;;
     match screenshot with
     | Some (String _ _ as path) =>     (* [if screenshot:] *)
         Ext.open_file path ;;
         Ext.reply_photo path response_text reply_markup ;;
         Ext.os_remove path
     | _ =>
         message_reply_text update (response_text +:+ no_screenshot_note)
           (Some reply_markup)
     end)
    (fun e => Ext.edit_text ("Error checking website: " +:+ e)).

(** *** The button handler *)

Definition button_callback (update : Update) : M unit :=
  let* ok := check_auth update in
  if negb ok then ret tt else
  match callback_query update with
  | None => raise (AttributeError "answer")
  | Some query =>
      Ext.answer ;;
      match decode_payload (data query) with
      | Some (More, url) =>
          let* info := get_website_info url in
          Ext.edit_message_caption (detail_text url info) [[back_button url]]
      | Some (Back, url) =>
          let* info := get_website_info url in
          Ext.edit_message_caption (summary_text url info) [[more_button url]]
      | None => ret tt
      end
  end.

(** Running a handler from a state. *)
Definition run {A} (m : M A) (W : World) (st : State) : Res A * State := m W st.

(** ** Sample worlds and inputs *)

Definition sample_entry : WhoisEntry :=
  mkWhois true (VStr "Example Registrar")
    (VList [VOther "1995-08-14 04:00:00"; VOther "1995-08-13 00:00:00"]
           "[datetime.datetime(1995, 8, 14, 4, 0), datetime.datetime(1995, 8, 13, 0, 0)]")
    (VOther "2030-08-13 04:00:00").

(** A world whose answers do not depend on the history; the arguments choose
    the outcome of the probe, of DNS, of WHOIS, of the navigation, of the
    captured image and of the photo send.  Everything else succeeds. *)
Definition sample_world (probe : Res (Z * Z)) (dns : Res string)
    (whois : Res WhoisEntry) (navigate : Res unit) (capture : Image)
    (photo : Res unit) : World :=
  mkWorld
    (fun _ _ => probe) (fun _ _ => dns) (fun _ _ => whois)
    (fun _ => Ok tt) (fun _ _ => navigate)
    (fun _ _ => Ok (Some capture)) (fun _ => Ok tt)
    (fun _ _ => None) (fun _ _ _ => Ok tt) (fun _ _ => Ok tt) (fun _ _ => true)
    (fun _ _ => None) (fun _ _ => None)
    (fun _ _ _ => Ok tt) (fun _ _ _ _ => photo)
    (fun _ => Ok tt) (fun _ _ => Ok tt) (fun _ => Ok tt) (fun _ _ _ => Ok tt).

Definition full_hd : Image := mkImage 1920 1080.

Definition happy_world : World :=
  sample_world (Ok (200, 123)) (Ok "93.184.216.34") (Ok sample_entry)
    (Ok tt) full_hd (Ok tt).

Definition whois_down_world : World :=
  sample_world (Ok (200, 123)) (Ok "93.184.216.34") (Raise "whois: connection refused")
    (Ok tt) full_hd (Ok tt).

Definition probe_down_world : World :=
  sample_world (Raise "ConnectTimeout") (Ok "93.184.216.34") (Ok sample_entry)
    (Ok tt) full_hd (Ok tt).

Definition navigation_fails_world : World :=
  sample_world (Ok (200, 123)) (Ok "93.184.216.34") (Ok sample_entry)
    (Raise "WebDriverException: net::ERR_NAME_NOT_RESOLVED") full_hd (Ok tt).

Definition send_fails_world : World :=
  sample_world (Ok (200, 123)) (Ok "93.184.216.34") (Ok sample_entry)
    (Ok tt) full_hd (Raise "TimedOut").

(** Worlds in which one call of the capturer or of the transport fails and
    everything else succeeds. *)
Definition launch_fails_world : World :=
  mkWorld
    (fun _ _ => Ok (200, 123)) (fun _ _ => Ok "93.184.216.34")
    (fun _ _ => Ok sample_entry)
    (fun _ => Raise "SessionNotCreatedException") (fun _ _ => Ok tt)
    (fun _ _ => Ok (Some full_hd)) (fun _ => Ok tt)
    (fun _ _ => None) (fun _ _ _ => Ok tt) (fun _ _ => Ok tt) (fun _ _ => true)
    (fun _ _ => None) (fun _ _ => None)
    (fun _ _ _ => Ok tt) (fun _ _ _ _ => Ok tt)
    (fun _ => Ok tt) (fun _ _ => Ok tt) (fun _ => Ok tt) (fun _ _ _ => Ok tt).

Definition resize_fails_world : World :=
  mkWorld
    (fun _ _ => Ok (200, 123)) (fun _ _ => Ok "93.184.216.34")
    (fun _ _ => Ok sample_entry)
    (fun _ => Ok tt) (fun _ _ => Ok tt)
    (fun _ _ => Ok (Some full_hd)) (fun _ => Ok tt)
    (fun _ _ => None) (fun _ _ _ => Raise "MemoryError") (fun _ _ => Ok tt)
    (fun _ _ => true)
    (fun _ _ => None) (fun _ _ => None)
    (fun _ _ _ => Ok tt) (fun _ _ _ _ => Ok tt)
    (fun _ => Ok tt) (fun _ _ => Ok tt) (fun _ => Ok tt) (fun _ _ _ => Ok tt).

(** The save of the resized image fails after its target was opened. *)
Definition save_fails_world : World :=
  mkWorld
    (fun _ _ => Ok (200, 123)) (fun _ _ => Ok "93.184.216.34")
    (fun _ _ => Ok sample_entry)
    (fun _ => Ok tt) (fun _ _ => Ok tt)
    (fun _ _ => Ok (Some full_hd)) (fun _ => Ok tt)
    (fun _ _ => None) (fun _ _ _ => Ok tt)
    (fun _ _ => Raise "[Errno 28] No space left on device") (fun _ _ => true)
    (fun _ _ => None) (fun _ _ => None)
    (fun _ _ _ => Ok tt) (fun _ _ _ _ => Ok tt)
    (fun _ => Ok tt) (fun _ _ => Ok tt) (fun _ => Ok tt) (fun _ _ _ => Ok tt).

(** A registry that knows the domain but none of its attributes. *)
Definition blank_whois_world : World :=
  sample_world (Ok (200, 123)) (Ok "93.184.216.34")
    (Ok (mkWhois true VNone VNone VNone)) (Ok tt) full_hd (Ok tt).

(** The photo send and the edit that reports it both fail. *)
Definition transport_down_world : World :=
  mkWorld
    (fun _ _ => Ok (200, 123)) (fun _ _ => Ok "93.184.216.34")
    (fun _ _ => Ok sample_entry)
    (fun _ => Ok tt) (fun _ _ => Ok tt)
    (fun _ _ => Ok (Some full_hd)) (fun _ => Ok tt)
    (fun _ _ => None) (fun _ _ _ => Ok tt) (fun _ _ => Ok tt) (fun _ _ => true)
    (fun _ _ => None) (fun _ _ => None)
    (fun _ _ _ => Ok tt) (fun _ _ _ _ => Raise "TimedOut")
    (fun _ => Ok tt) (fun _ _ => Raise "Message to edit not found")
    (fun _ => Ok tt) (fun _ _ _ => Ok tt).

(** The processing note cannot be deleted. *)
Definition delete_fails_world : World :=
  mkWorld
    (fun _ _ => Ok (200, 123)) (fun _ _ => Ok "93.184.216.34")
    (fun _ _ => Ok sample_entry)
    (fun _ => Ok tt) (fun _ _ => Ok tt)
    (fun _ _ => Ok (Some full_hd)) (fun _ => Ok tt)
    (fun _ _ => None) (fun _ _ _ => Ok tt) (fun _ _ => Ok tt) (fun _ _ => true)
    (fun _ _ => None) (fun _ _ => None)
    (fun _ _ _ => Ok tt) (fun _ _ _ _ => Ok tt)
    (fun _ => Raise "Message can't be deleted") (fun _ _ => Ok tt)
    (fun _ => Ok tt) (fun _ _ _ => Ok tt).

Definition boot : State := mkState [] ∅ 0.

Definition allowed_id : Z := 123456789.
Definition stranger_id : Z := 42.

Definition text_update (sender : Z) (body : string) : Update :=
  mkUpdate (Some sender) (Some (mkMessage body)) None.

Definition command_update (sender : Z) : Update :=
  mkUpdate (Some sender) (Some (mkMessage "/start")) None.

Definition press_update (sender : Z) (payload : string) : Update :=
  mkUpdate (Some sender) None (Some (mkQuery payload)).

(** ** Reading a trace *)

(** The component of the system a call belongs to. *)
Inductive Component := Prober | Lookup | Capturer | Storage | Transport.

Definition origin (ev : Event) : Component :=
  match ev with
  | EvHttpGet _ _ => Prober
  | EvDns _ _ | EvWhois _ _ => Lookup
  | EvLaunch _ | EvNavigate _ _ | EvSleep _ | EvSaveScreenshot _ _ | EvQuit _
  | EvImageOpen _ _ | EvResize _ _ _ | EvImageSave _ _ => Capturer
  | EvOpenFile _ _ | EvRemove _ _ => Storage
  | EvReplyText _ _ _ | EvReplyPhoto _ _ _ _ | EvDeleteMessage _
  | EvEditText _ _ | EvAnswer _ | EvEditCaption _ _ _ => Transport
  end.

(** [targets url ev]: if [ev] is a probe, a lookup or a navigation, it is about
    [url] (the lookups about its host). *)
Definition targets (url : string) (ev : Event) : Prop :=
  match ev with
  | EvHttpGet u _ => u = url
  | EvDns d _ | EvWhois d _ => d = domain_of url
  | EvNavigate u _ => u = url
  | _ => True
  end.

Definition is_quit (ev : Event) : bool :=
  match ev with EvQuit _ => true | _ => false end.

Definition is_remove (ev : Event) : bool :=
  match ev with EvRemove _ _ => true | _ => false end.

(** A call that rewrites an image: [resize] or [save]. *)
Definition is_image_write (ev : Event) : bool :=
  match ev with EvResize _ _ _ | EvImageSave _ _ => true | _ => false end.

(** ** Reading strings *)

(** [c in s] *)
Fixpoint has_char (c : ascii) (s : string) : bool :=
  match s with
  | EmptyString => false
  | String c' s' => bool_decide (c = c') || has_char c s'
  end.

(** [sep in s], for a non-empty [sep] *)
Fixpoint occurs (sep s : string) : bool :=
  match s with
  | EmptyString => false
  | String _ s' => String.prefix sep s || occurs sep s'
  end.

Definition slash : ascii := "/"%char.

(** * Properties *)

(** ** Proof support *)

(** Unfold the monad and the external calls down to the oracle queries. *)
Ltac exec :=
  cbv beta iota zeta delta
    [run bind ret raise lift try_except ask
     Ext.http_get Ext.gethostbyname Ext.whois Ext.chrome_launch Ext.driver_get
     Ext.sleep Ext.save_screenshot Ext.driver_quit Ext.on_file Ext.image_open
     Ext.image_resize Ext.image_save Ext.open_file Ext.os_remove Ext.reply_text
     Ext.reply_photo Ext.delete_message Ext.edit_text Ext.answer
     Ext.edit_message_caption];
  cbn [trace files browsers fst snd negb];
  rewrite ?lookup_insert_eq.

(** Case split on the innermost scrutinee still blocking the computation. *)
Ltac fork :=
  match goal with
  | |- context [match ?x with _ => _ end] =>
      lazymatch x with
      | context [match _ with _ => _ end] => fail
      | context [events_since] => fail
      | _ => destruct x eqn:?
      end
  end; exec.

Ltac forks := repeat fork.

(** [events_since] of a state whose trace extends the old one. *)
Lemma events_since_app (st : State) (evs : list Event) (fs : gmap string Content)
    (b : nat) :
  events_since st (mkState (trace st ++ evs) fs b) = evs.
Proof. unfold events_since; simpl. apply drop_app_length. Qed.

Ltac flat :=
  repeat rewrite <- app_assoc; cbn [app];
  try rewrite events_since_app.

(** ** Button payloads *)

(** The empty prefix test does not reduce on an unknown string. *)
Lemma decode_encode (t : Tag) (url : string) :
  decode_payload (encode_payload t url) = Some (t, url).
Proof. destruct t, url; reflexivity. Qed.

(** C6: encoding a Summary-view button payload for a URL and decoding it gives
    tag [More] and the same URL; encoding a Back button payload and decoding it
    gives tag [Back] and the same URL. *)
Theorem payload_round_trip (url : string) :
  decode_payload (callback_data (more_button url)) = Some (More, url) /\
  decode_payload (callback_data (back_button url)) = Some (Back, url).
Proof. split; apply decode_encode. Qed.

Example split_scheme :
  PyStr.split "https://example.com/a/b" "//" = ["https:"; "example.com/a/b"].
Proof. reflexivity. Qed.

Example split_overlap : PyStr.split "a///b//" "//" = ["a"; "/b"; ""].
Proof. reflexivity. Qed.

Example domain_of_full : domain_of "https://example.com/a/b" = "example.com".
Proof. reflexivity. Qed.

Example domain_of_bare : domain_of "example.com" = "example.com".
Proof. reflexivity. Qed.

(** ** The screenshot capturer *)

(** C5: the capturer never raises: it returns a path when every call it made
    succeeded and the no-screenshot result as soon as one of them (launch,
    navigation, capture, quit, image open, resize, save) failed. *)
Theorem take_screenshot_never_raises (W : World) (st : State) (url : string) :
  fst (run (take_screenshot url) W st) =
  Ok (if existsb failed (events_since st (snd (run (take_screenshot url) W st)))
      then None else Some screenshot_path).
Proof.
  unfold take_screenshot, resize_if_too_large. exec.
  forks; flat; reflexivity.
Qed.

(** Membership of an event in an explicit trace. *)
Ltac in_inv :=
  repeat match goal with
  | H : In _ [] |- _ => destruct H
  | H : In _ (_ :: _) |- _ => destruct H as [H | H]; [try discriminate H |]
  | H : In _ (_ ++ _) |- _ => apply in_app_or in H; destruct H as [H | H]
  | H : In ?ev ?l, F : Forall (fun ev => origin ev = _) ?l |- _ =>
      apply (proj1 (List.Forall_forall _ _) F) in H; discriminate H
  | H : _ /\ _ |- _ => destruct H
  | H : _ \/ _ |- _ => destruct H
  | H : ex _ |- _ => destruct H
  end.

(** C2 (as the code has it): when the browser was launched and the navigation
    or the capture then raised, [driver.quit()] is never called: the capturer
    returns the no-screenshot result and leaves one more browser running. *)
Theorem browser_left_running_on_failure (W : World) (st : State) (url : string) :
  let out := run (take_screenshot url) W st in
  let evs := events_since st (snd out) in
  In (EvLaunch (Ok tt)) evs ->
  (exists e, In (EvNavigate url (Raise e)) evs \/
             In (EvSaveScreenshot screenshot_path (Raise e)) evs) ->
  fst out = Ok None /\
  existsb is_quit evs = false /\
  browsers (snd out) = S (browsers st).
Proof.
  unfold take_screenshot, resize_if_too_large. exec.
  forks; flat; cbn zeta; intros Hl Hf; in_inv; auto.
Qed.

Lemma browser_left_running_on_failure_witness :
  let out := run (take_screenshot "https://example.com") navigation_fails_world boot in
  fst out = Ok None /\
  existsb is_quit (events_since boot (snd out)) = false /\
  browsers (snd out) = 1%nat.
Proof.
  apply (browser_left_running_on_failure navigation_fails_world boot
           "https://example.com").
  - vm_compute. left. reflexivity.
  - exists "WebDriverException: net::ERR_NAME_NOT_RESOLVED".
    vm_compute. left. right. left. reflexivity.
Defined.

(** C8: when the capturer returns a path, the image it opened there either was
    wider than 1280 and has been resized with the LANCZOS filter to width 1280
    and height [int(height * (1280 / width))] and saved over the file, or was
    at most 1280 wide and has not been rewritten; in both cases the file is at
    most 1280 wide. *)
Theorem screenshot_width_bounded (W : World) (st st' : State)
    (url path : string) :
  run (take_screenshot url) W st = (Ok (Some path), st') ->
  exists img out,
    In (EvImageOpen path (Ok img)) (events_since st st') /\
    files st' !! path = Some (Picture out) /\
    (width out <= 1280)%Z /\
    if (1280 <? width img)%Z then
      let h := PyFloat.to_int
                 (PrimFloat.mul (PyFloat.of_int (height img))
                    (PrimFloat.div (PyFloat.of_int 1280)
                       (PyFloat.of_int (width img)))) in
      out = mkImage 1280 h /\
      In (EvResize (1280, h)%Z LANCZOS (Ok tt)) (events_since st st') /\
      In (EvImageSave path (Ok tt)) (events_since st st')
    else
      out = img /\
      existsb is_image_write (events_since st st') = false.
Proof.
  unfold take_screenshot, resize_if_too_large. exec.
  forks; flat; intros [= <- <-]; flat;
    repeat match goal with u : unit |- _ => destruct u end.
  all: match goal with
       | H : (1280 <? width ?i)%Z = _ |- _ =>
           exists i; eexists; rewrite H
       end.
  all: cbn [trace files browsers]; rewrite ?lookup_insert_eq.
  all: repeat split; try reflexivity; try eassumption; cbn [In]; auto 12.
  all: try (cbn [width]; lia).
  all: try (apply Z.ltb_ge; assumption).
Qed.

Example new_size_full_hd : new_size (mkImage 1920 1080) = (1280, 720).
Proof. vm_compute. reflexivity. Qed.

(** The height is the truncated binary64 product, here one below 537 * 1280 / 1432 = 480. *)
Example new_size_truncates : new_size (mkImage 1432 537) = (1280, 479).
Proof. vm_compute. reflexivity. Qed.

Lemma screenshot_width_bounded_witness :
  exists img out,
    In (EvImageOpen screenshot_path (Ok img))
       (events_since boot
          (snd (run (take_screenshot "https://example.com") happy_world boot))) /\
    out = mkImage 1280 720 /\ img = full_hd.
Proof.
  destruct (screenshot_width_bounded happy_world boot
              (snd (run (take_screenshot "https://example.com") happy_world boot))
              "https://example.com" screenshot_path)
    as (img & out & Hopen & Hfile & Hw & Hsz).
  - vm_compute. reflexivity.
  - exists img, out. split; [exact Hopen|].
    vm_compute in Hopen.
    destruct Hopen as [H|[H|[H|[H|[H|[H|[H|[H|[]]]]]]]]]; try discriminate H.
    injection H as <-. vm_compute in Hsz. destruct Hsz as (-> & _).
    split; reflexivity.
Defined.

(** ** The info function *)

(** What a run of [get_website_info] looks like from outside: it returns a
    dictionary, touches neither files nor browsers, starts with the GET of
    [url], and only calls the prober and the lookup, about [url]. *)
Lemma get_website_info_total (W : World) (st : State) (url : string) :
  exists info rest,
    run (get_website_info url) W st =
      (Ok info,
       mkState (trace st ++ EvHttpGet url (w_http_get W (trace st) url) :: rest)
               (files st) (browsers st)) /\
    Forall (targets url) rest /\
    Forall (fun ev => origin ev = Lookup) rest.
Proof.
  unfold get_website_info, date_field, index0. exec.
  forks; flat; do 2 eexists; (split; [reflexivity|]);
    split; repeat constructor.
Qed.

(** C4: when DNS resolved the host and the WHOIS query raised, the info
    function still returns a dictionary: its [ip] is the resolved address, and
    [registrar], [creation_date] and [expiration_date] are all ["N/A"]. *)
Theorem whois_failure_degrades (W : World) (st : State) (url ip : string)
    (e : exn) :
  let out := run (get_website_info url) W st in
  let evs := events_since st (snd out) in
  In (EvDns (domain_of url) (Ok ip)) evs ->
  In (EvWhois (domain_of url) (Raise e)) evs ->
  exists info : gmap string pyval,
    fst out = Ok info /\
    info !! "ip" = Some (VStr ip) /\
    info !! "registrar" = Some (VStr "N/A") /\
    info !! "creation_date" = Some (VStr "N/A") /\
    info !! "expiration_date" = Some (VStr "N/A").
Proof.
  unfold get_website_info, date_field, index0. exec.
  forks; flat; cbn zeta; intros Hd Hw; in_inv.
  match goal with H : EvDns _ _ = EvDns _ _ |- _ => injection H as -> end.
  eexists. split; [reflexivity|].
  repeat split; reflexivity.
Qed.

Lemma whois_failure_degrades_witness :
  exists info : gmap string pyval,
    fst (run (get_website_info "https://example.com/about") whois_down_world boot)
      = Ok info /\
    info !! "ip" = Some (VStr "93.184.216.34") /\
    info !! "registrar" = Some (VStr "N/A") /\
    info !! "creation_date" = Some (VStr "N/A") /\
    info !! "expiration_date" = Some (VStr "N/A").
Proof.
  apply (whois_failure_degrades whois_down_world boot
           "https://example.com/about" "93.184.216.34"
           "whois: connection refused").
  - vm_compute. right. left. reflexivity.
  - vm_compute. right. right. left. reflexivity.
Defined.

(** C10: when the GET of the probe raises, the info function makes no other
    call (no DNS, no WHOIS) and returns a dictionary holding only [error]; the
    Summary view then shows ["N/A"] for response time and status and the Detail
    view ["N/A"] for IP, registrar, creation date and expiration date. *)
Theorem probe_failure_is_fatal (W : World) (st : State) (url : string)
    (e : exn) :
  w_http_get W (trace st) url = Raise e ->
  let info : gmap string pyval := {[ "error" := VStr e ]} in
  run (get_website_info url) W st =
    (Ok info,
     mkState (trace st ++ [EvHttpGet url (Raise e)]) (files st) (browsers st)) /\
  summary_text url info =
    "🌐 Website: " +:+ url +:+ nl +:+
    "⏱ Response Time: N/Ams" +:+ nl +:+
    "📊 Status: N/A" +:+ nl /\
  detail_text url info =
    "🌐 Detailed Information for " +:+ url +:+ nl +:+ nl +:+
    "🔍 IP Address: N/A" +:+ nl +:+
    "🏢 Registrar: N/A" +:+ nl +:+
    "📅 Created: N/A" +:+ nl +:+
    "⌛ Expires: N/A" +:+ nl.
Proof.
  intros He info. split; [|split].
  - unfold get_website_info. exec. rewrite He. reflexivity.
  - reflexivity.
  - reflexivity.
Qed.

Lemma probe_failure_is_fatal_witness :
  events_since boot
    (snd (run (get_website_info "https://example.com") probe_down_world boot))
  = [EvHttpGet "https://example.com" (Raise "ConnectTimeout")].
Proof.
  destruct (probe_failure_is_fatal probe_down_world boot "https://example.com"
              "ConnectTimeout") as (Hrun & _).
  - reflexivity.
  - rewrite Hrun. reflexivity.
Defined.

(** What a run of [take_screenshot] looks like from outside: it returns, its
    calls are all the capturer's and about [url], the launch comes first, and a
    returned path is [screenshot_path] and names an existing file. *)
Lemma take_screenshot_total (W : World) (st : State) (url : string) :
  exists o rest fs b,
    run (take_screenshot url) W st =
      (Ok o, mkState (trace st ++ EvLaunch (w_launch W (trace st)) :: rest) fs b) /\
    Forall (targets url) rest /\
    Forall (fun ev => origin ev = Capturer) rest /\
    (o = None \/ o = Some screenshot_path /\ is_Some (fs !! screenshot_path)).
Proof.
  unfold take_screenshot, resize_if_too_large. exec.
  forks; flat; do 4 eexists; (split; [reflexivity|]);
    (split; [repeat constructor|]); (split; [repeat constructor|]);
    cbn [trace files browsers]; rewrite ?lookup_insert_eq; eauto.
Qed.

(** ** The text-message handler *)

Lemma normalize_url_eq (body : string) :
  normalize_url body =
  if PyStr.startswith body "http://" || PyStr.startswith body "https://"
  then body else "https://" +:+ body.
Proof.
  unfold normalize_url, PyStr.startswith_any. cbn [existsb].
  rewrite orb_false_r. reflexivity.
Qed.

Lemma allowed_passes (uid : Z) :
  In uid ALLOWED_USERS -> bool_decide (uid ∈ ALLOWED_USERS) = true.
Proof. intros H. apply bool_decide_eq_true, list_elem_of_In, H. Qed.

Lemma stranger_stopped (uid : Z) :
  ~ In uid ALLOWED_USERS -> bool_decide (uid ∈ ALLOWED_USERS) = false.
Proof.
  intros H. apply bool_decide_eq_false. intros Hin. apply H, list_elem_of_In, Hin.
Qed.

(** Replace the two sub-runs of [handle_url] by what is known about them. *)
Ltac sub_runs :=
  match goal with
  | |- context [get_website_info ?u ?W ?s] =>
      let info := fresh "info" in
      let lookups := fresh "lookups" in
      let Hrun := fresh "Hinfo" in
      destruct (get_website_info_total W s u)
        as (info & lookups & Hrun & ? & ?);
      unfold run in Hrun; rewrite Hrun; clear Hrun; exec
  | |- context [take_screenshot ?u ?W ?s] =>
      let o := fresh "shot" in
      let steps := fresh "steps" in
      let Hrun := fresh "Hshot" in
      destruct (take_screenshot_total W s u)
        as (o & steps & ? & ? & Hrun & ? & ? & [-> | [-> [? ?]]]);
      unfold run in Hrun; rewrite Hrun; clear Hrun;
      unfold screenshot_path in *; exec
  end.

Ltac all_events :=
  repeat first
    [ apply Forall_nil_2
    | apply Forall_cons_2
    | apply Forall_app_2 ];
  try assumption; try exact I; try reflexivity.

(** C7: for an authorized text message, every probe, lookup and navigation of
    the handler is about the normalized URL: the text itself when it starts
    with http:// or https://, and "https://" followed by the text otherwise;
    once the processing note went out, the probe is issued and the capturer
    started. *)
Theorem handle_url_passes_normalized_url (W : World) (st : State) (uid : Z)
    (body : string) :
  In uid ALLOWED_USERS ->
  let url :=
    if PyStr.startswith body "http://" || PyStr.startswith body "https://"
    then body else "https://" +:+ body in
  let evs :=
    events_since st (snd (run (handle_url (text_update uid body)) W st)) in
  Forall (targets url) evs /\
  (w_reply_text W (trace st) processing_text None = Ok tt ->
   (exists r, In (EvHttpGet url r) evs) /\ (exists r, In (EvLaunch r) evs)).
Proof.
  intros Hin. rewrite <- normalize_url_eq. cbn zeta.
  unfold handle_url, check_auth, message_text, message_reply_text, text_update.
  cbn [effective_user message text]. rewrite (allowed_passes _ Hin).
  exec. cbn [negb].
  fork.
  - repeat first [sub_runs | fork]; flat.
    all: split; [all_events|].
    all: intros _; split; eexists; cbn [In]; rewrite ?in_app_iff; cbn [In];
      eauto 8.
  - flat. split; [all_events|]. intros [=].
Qed.

(** C3 (as the code has it): when the photo send raises, the handler never
    calls [os.remove]: the screenshot file is still there when it completes. *)
Theorem screenshot_kept_when_send_fails (W : World) (st : State) (uid : Z)
    (body : string) :
  In uid ALLOWED_USERS ->
  let out := run (handle_url (text_update uid body)) W st in
  let evs := events_since st (snd out) in
  (exists p c m e, In (EvReplyPhoto p c m (Raise e)) evs) ->
  (forall p r, ~ In (EvRemove p r) evs) /\
  is_Some (files (snd out) !! screenshot_path).
Proof.
  intros Hin. cbn zeta.
  unfold handle_url, check_auth, message_text, message_reply_text, text_update.
  cbn [effective_user message text]. rewrite (allowed_passes _ Hin).
  exec. cbn [negb].
  repeat first [sub_runs | fork]; flat; intros Hsend; in_inv.
  all: split; [intros p' r' Hrm; in_inv | cbn [files snd]; eauto].
Qed.

Lemma screenshot_kept_when_send_fails_witness :
  let out :=
    run (handle_url (text_update allowed_id "example.com")) send_fails_world boot in
  (forall p r, ~ In (EvRemove p r) (events_since boot (snd out))) /\
  is_Some (files (snd out) !! screenshot_path).
Proof.
  apply (screenshot_kept_when_send_fails send_fails_world boot allowed_id
           "example.com").
  - left. reflexivity.
  - eexists _, _, _, "TimedOut". vm_compute. do 14 right. left. reflexivity.
Defined.

(** The sibling path: once the photo went out and the removal succeeded, the
    screenshot file is gone. *)
Lemma screenshot_removed_after_send (W : World) (st : State) (uid : Z)
    (body : string) :
  In uid ALLOWED_USERS ->
  let out := run (handle_url (text_update uid body)) W st in
  (exists p, In (EvRemove p (Ok tt)) (events_since st (snd out))) ->
  files (snd out) !! screenshot_path = None.
Proof.
  intros Hin. cbn zeta.
  unfold handle_url, check_auth, message_text, message_reply_text, text_update.
  cbn [effective_user message text]. rewrite (allowed_passes _ Hin).
  exec. cbn [negb].
  repeat first [sub_runs | fork]; flat; intros Hrm; in_inv.
  cbn [files snd]. apply lookup_delete_eq.
Qed.

Lemma handle_url_passes_normalized_url_witness :
  let evs :=
    events_since boot
      (snd (run (handle_url (text_update allowed_id "example.com")) happy_world boot)) in
  Forall (targets "https://example.com") evs /\
  In (EvHttpGet "https://example.com" (Ok (200, 123))) evs /\
  In (EvDns "example.com" (Ok "93.184.216.34")) evs /\
  In (EvNavigate "https://example.com" (Ok tt)) evs.
Proof.
  destruct (handle_url_passes_normalized_url happy_world boot allowed_id
              "example.com") as [Hall _].
  - left. reflexivity.
  - split; [exact Hall|]. vm_compute. auto 12.
Defined.

(** ** The access guard *)

(** C1 (as the code has it): a button press from a sender outside the
    allow-list makes [check_auth] read [update.message], which a button press
    does not carry: the handler raises before any call, so no rejection message
    is sent (and no probe, lookup or capture is made either). *)
Theorem stranger_press_gets_no_rejection (W : World) (st : State) (uid : Z)
    (payload : string) :
  ~ In uid ALLOWED_USERS ->
  run (button_callback (press_update uid payload)) W st =
    (Raise (AttributeError "reply_text"), st).
Proof.
  intros Hout.
  unfold button_callback, check_auth, message_reply_text, press_update.
  cbn [effective_user message]. rewrite (stranger_stopped _ Hout).
  reflexivity.
Qed.

Lemma stranger_press_gets_no_rejection_witness :
  run (button_callback (press_update stranger_id "more_https://example.com"))
      happy_world boot =
    (Raise "'NoneType' object has no attribute 'reply_text'", boot).
Proof.
  apply (stranger_press_gets_no_rejection happy_world boot stranger_id
           "more_https://example.com").
  vm_compute. intros [H | [H | []]]; discriminate H.
Defined.

(** The two entry points whose update carries a message do reject: the only
    call is the send of the rejection text, and the handler stops. *)
Lemma stranger_command_rejected (W : World) (st : State) (uid : Z) :
  ~ In uid ALLOWED_USERS ->
  events_since st (snd (run (start (command_update uid)) W st)) =
    [EvReplyText rejection_text None (w_reply_text W (trace st) rejection_text None)].
Proof.
  intros Hout. unfold start, check_auth, message_reply_text, command_update.
  cbn [effective_user message]. rewrite (stranger_stopped _ Hout).
  exec. cbn [negb]. forks; flat; reflexivity.
Qed.

Lemma stranger_text_rejected (W : World) (st : State) (uid : Z) (body : string) :
  ~ In uid ALLOWED_USERS ->
  events_since st (snd (run (handle_url (text_update uid body)) W st)) =
    [EvReplyText rejection_text None (w_reply_text W (trace st) rejection_text None)].
Proof.
  intros Hout. unfold handle_url, check_auth, message_reply_text, text_update.
  cbn [effective_user message]. rewrite (stranger_stopped _ Hout).
  exec. cbn [negb]. forks; flat; reflexivity.
Qed.

(** ** The Detail view *)

(** An authorized press of a More button for [url], once acknowledged,
    re-runs the info function on [url] and edits the caption to the Detail
    view with a Back button for [url]; the view shows IP address, registrar,
    creation date and expiration date, each as [str()] of the value found in
    the info dictionary and as ["N/A"] when the dictionary has no such key. *)
Theorem more_press_renders_detail_view (W : World) (st : State) (uid : Z)
    (url : string) :
  In uid ALLOWED_USERS ->
  w_answer W (trace st) = Ok tt ->
  let st1 := mkState (trace st ++ [EvAnswer (Ok tt)]) (files st) (browsers st) in
  exists (info : gmap string pyval) (st2 : State) (r : Res unit),
    run (get_website_info url) W st1 = (Ok info, st2) /\
    run (button_callback (press_update uid (encode_payload More url))) W st =
      (r, mkState
            (trace st2 ++ [EvEditCaption (detail_text url info) [[back_button url]] r])
            (files st2) (browsers st2)) /\
    let field key :=
      match info !! key with Some v => py_str v | None => "N/A" end in
    detail_text url info =
      "🌐 Detailed Information for " +:+ url +:+ nl +:+ nl +:+
      "🔍 IP Address: " +:+ field "ip" +:+ nl +:+
      "🏢 Registrar: " +:+ field "registrar" +:+ nl +:+
      "📅 Created: " +:+ field "creation_date" +:+ nl +:+
      "⌛ Expires: " +:+ field "expiration_date" +:+ nl.
Proof.
  intros Hin Hans st1.
  destruct (get_website_info_total W st1 url) as (info & rest & Hrun & _ & _).
  eexists info, _, _. split; [exact Hrun|]. split.
  - unfold button_callback, check_auth, press_update.
    cbn [effective_user message callback_query data].
    rewrite (allowed_passes _ Hin).
    rewrite decode_encode.
    exec. cbn [negb]. rewrite Hans. fold st1.
    unfold run in Hrun. rewrite Hrun. exec. reflexivity.
  - unfold detail_text, get_or_na.
    destruct (info !! "ip"), (info !! "registrar"), (info !! "creation_date"),
      (info !! "expiration_date"); reflexivity.
Qed.

Lemma more_press_renders_detail_view_witness :
  exists (info : gmap string pyval) (st2 : State) (r : Res unit),
    run (get_website_info "https://example.com") happy_world
        (mkState [EvAnswer (Ok tt)] ∅ 0) = (Ok info, st2) /\
    run (button_callback (press_update allowed_id "more_https://example.com"))
        happy_world boot =
      (r, mkState
            (trace st2 ++
             [EvEditCaption (detail_text "https://example.com" info)
                [[back_button "https://example.com"]] r])
            (files st2) (browsers st2)).
Proof.
  destruct (more_press_renders_detail_view happy_world boot allowed_id
              "https://example.com") as (info & st2 & r & Hinfo & Hrun & _).
  - left. reflexivity.
  - reflexivity.
  - exists info, st2, r. split; [exact Hinfo | exact Hrun].
Defined.

(** A key that is present is shown as [str()] of its value, whatever it is: a
    WHOIS attribute that came back as [None] shows as "None". *)
Example detail_view_of_none :
  get_or_na {[ "registrar" := VNone ]} "registrar" = "None" /\
  get_or_na {[ "registrar" := VNone ]} "ip" = "N/A".
Proof. split; reflexivity. Qed.

(** The whole Detail view for the sample world. *)
Example detail_view_sample :
  forall info,
    fst (run (get_website_info "https://example.com") happy_world boot) = Ok info ->
    detail_text "https://example.com" info =
      "🌐 Detailed Information for https://example.com" +:+ nl +:+ nl +:+
      "🔍 IP Address: 93.184.216.34" +:+ nl +:+
      "🏢 Registrar: Example Registrar" +:+ nl +:+
      "📅 Created: 1995-08-14 04:00:00" +:+ nl +:+
      "⌛ Expires: 2030-08-13 04:00:00" +:+ nl.
Proof. intros info [= <-]. vm_compute. reflexivity. Qed.

(** * More of the program *)

(** ** Strings: [split] and the host extraction *)

Lemma str_app_cons (c : ascii) (a b : string) :
  String c a +:+ b = String c (a +:+ b).
Proof. reflexivity. Qed.

Lemma str_app_nil_r (s : string) : s +:+ "" = s.
Proof.
  induction s as [|c s IH]; [reflexivity|]. rewrite str_app_cons, IH. reflexivity.
Qed.

Lemma str_app_assoc (a b c : string) : (a +:+ b) +:+ c = a +:+ b +:+ c.
Proof.
  induction a as [|x a IH]; [reflexivity|]. rewrite !str_app_cons, IH. reflexivity.
Qed.

Lemma str_app_snoc (acc : string) (c : ascii) (s : string) :
  (acc +:+ String c "") +:+ s = acc +:+ String c s.
Proof. rewrite str_app_assoc. reflexivity. Qed.

Lemma str_length_app (a b : string) :
  String.length (a +:+ b) = (String.length a + String.length b)%nat.
Proof.
  induction a as [|x a IH]; [reflexivity|].
  rewrite str_app_cons. cbn [String.length]. rewrite IH. reflexivity.
Qed.

Lemma prefix_nil (s : string) : String.prefix "" s = true.
Proof. destruct s; reflexivity. Qed.

Lemma prefix_cons (a b : ascii) (p s : string) :
  String.prefix (String a p) (String b s) =
  bool_decide (a = b) && String.prefix p s.
Proof.
  cbn. destruct (ascii_dec a b) as [->|Hne].
  - rewrite bool_decide_true by reflexivity. reflexivity.
  - rewrite bool_decide_false by assumption. reflexivity.
Qed.

Lemma prefix_app (p s : string) :
  String.prefix p s = true <-> exists t, s = p +:+ t.
Proof.
  revert s. induction p as [|a p IH]; intros s.
  - rewrite prefix_nil. split; [exists s; reflexivity | reflexivity].
  - destruct s as [|b s].
    + split; [discriminate | intros [t [=]]].
    + rewrite prefix_cons, andb_true_iff, bool_decide_eq_true, IH. split.
      * intros [-> [t ->]]. exists t. reflexivity.
      * intros [t [= -> ->]]. split; [reflexivity | exists t; reflexivity].
Qed.

Lemma split_go_skip (sep p acc t : string) :
  PyStr.split_go sep (String.length p) acc (p +:+ t) = PyStr.split_go sep 0 acc t.
Proof. induction p as [|c p IH]; [reflexivity | exact IH]. Qed.

Lemma split_go_nonempty (sep : string) (k : nat) (acc s : string) :
  PyStr.split_go sep k acc s <> [].
Proof.
  revert k acc. induction s as [|c s IH]; intros k acc; [discriminate|].
  cbn [PyStr.split_go]. destruct k; [|apply IH].
  destruct (String.prefix sep (String c s)); [discriminate | apply IH].
Qed.

Lemma concat_cons (sep x : string) (l : list string) :
  l <> [] -> String.concat sep (x :: l) = x +:+ sep +:+ String.concat sep l.
Proof. destruct l; [congruence | reflexivity]. Qed.

Lemma split_go_join (sep : string) (n : nat) :
  sep <> "" ->
  forall s acc, (String.length s <= n)%nat ->
    String.concat sep (PyStr.split_go sep 0 acc s) = acc +:+ s.
Proof.
  intros Hsep. induction n as [|n IH]; intros s acc Hlen.
  - destruct s; [|cbn in Hlen; lia]. cbn. rewrite str_app_nil_r. reflexivity.
  - destruct s as [|c s]; [cbn; rewrite str_app_nil_r; reflexivity|].
    cbn [PyStr.split_go]. cbn in Hlen.
    destruct (String.prefix sep (String c s)) eqn:Hp.
    + apply prefix_app in Hp as [t Ht].
      destruct sep as [|c' sep']; [congruence|].
      injection Ht as <- ->.
      cbn [String.length]. rewrite Nat.sub_succ, Nat.sub_0_r, split_go_skip.
      rewrite concat_cons by apply split_go_nonempty.
      rewrite IH by (rewrite str_length_app in Hlen; lia).
      reflexivity.
    + rewrite IH by lia. apply str_app_snoc.
Qed.

(** X1: joining the pieces of [s.split(sep)] with [sep] gives [s] back, and
    there is always at least one piece (so [[-1]] and [[0]] never fail). *)
Theorem split_join (s sep : string) :
  sep <> "" ->
  String.concat sep (PyStr.split s sep) = s /\ PyStr.split s sep <> [].
Proof.
  intros Hsep. split; [|apply split_go_nonempty].
  unfold PyStr.split. apply (split_go_join sep (String.length s) Hsep s "").
  lia.
Qed.

Lemma split_join_witness :
  String.concat "//" (PyStr.split "http://a//b/" "//") = "http://a//b/" /\
  PyStr.split "http://a//b/" "//" <> [].
Proof. apply (split_join "http://a//b/" "//"). discriminate. Defined.

Lemma has_char_app (c : ascii) (a b : string) :
  has_char c (a +:+ b) = has_char c a || has_char c b.
Proof.
  induction a as [|x a IH]; [reflexivity|].
  rewrite str_app_cons. cbn [has_char]. rewrite IH, orb_assoc. reflexivity.
Qed.

Lemma prefix_slash (c : ascii) (s : string) :
  String.prefix "/" (String c s) = bool_decide (slash = c).
Proof. rewrite prefix_cons, prefix_nil, andb_true_r. reflexivity. Qed.

Lemma first_piece_slash_free (acc s : string) :
  has_char slash acc = false ->
  has_char slash (PyStr.first_piece (PyStr.split_go "/" 0 acc s)) = false.
Proof.
  revert acc. induction s as [|c s IH]; intros acc Hacc; [exact Hacc|].
  cbn [PyStr.split_go]. rewrite prefix_slash.
  destruct (bool_decide (slash = c)) eqn:Hc; [exact Hacc|].
  apply IH. rewrite has_char_app, Hacc. cbn. rewrite Hc. reflexivity.
Qed.

(** X2: the host handed to DNS and WHOIS never contains a slash. *)
Theorem domain_of_slash_free (url : string) :
  has_char slash (domain_of url) = false.
Proof. unfold domain_of, PyStr.split. apply first_piece_slash_free. reflexivity. Qed.

Lemma split_go_absent (sep t acc : string) :
  occurs sep t = false -> PyStr.split_go sep 0 acc t = [acc +:+ t].
Proof.
  revert acc. induction t as [|c t IH]; intros acc Hno.
  - cbn. rewrite str_app_nil_r. reflexivity.
  - cbn [occurs] in Hno. apply orb_false_iff in Hno as [Hp Hrest].
    cbn [PyStr.split_go]. rewrite Hp, IH by exact Hrest.
    rewrite str_app_snoc. reflexivity.
Qed.

Lemma split_go_scheme (s t acc : string) :
  has_char slash s = false ->
  PyStr.split_go "//" 0 acc (s +:+ "//" +:+ t) =
  (acc +:+ s) :: PyStr.split_go "//" 0 "" t.
Proof.
  revert acc. induction s as [|c s IH]; intros acc Hs.
  - change ("" +:+ "//" +:+ t) with (String slash (String slash t)).
    cbn [PyStr.split_go]. rewrite !prefix_cons, prefix_nil.
    rewrite bool_decide_true by reflexivity.
    cbn. rewrite str_app_nil_r. reflexivity.
  - cbn [has_char] in Hs. apply orb_false_iff in Hs as [Hc Hs].
    rewrite str_app_cons. cbn [PyStr.split_go].
    rewrite prefix_cons. fold slash. rewrite Hc. cbn [andb].
    rewrite IH by exact Hs. rewrite str_app_snoc. reflexivity.
Qed.

Lemma first_piece_host (h rest acc : string) :
  has_char slash h = false ->
  rest = "" \/ String.prefix "/" rest = true ->
  PyStr.first_piece (PyStr.split_go "/" 0 acc (h +:+ rest)) = acc +:+ h.
Proof.
  revert acc. induction h as [|c h IH]; intros acc Hh Hrest.
  - rewrite str_app_nil_r. destruct Hrest as [-> | Hp]; [reflexivity|].
    apply prefix_app in Hp as [r ->].
    change ("" +:+ "/" +:+ r) with (String slash r).
    cbn [PyStr.split_go]. rewrite prefix_slash.
    rewrite bool_decide_true by reflexivity. reflexivity.
  - cbn [has_char] in Hh. apply orb_false_iff in Hh as [Hc Hh].
    rewrite str_app_cons. cbn [PyStr.split_go]. rewrite prefix_slash, Hc.
    rewrite IH by assumption. apply str_app_snoc.
Qed.

(** X3: for a URL [scheme://host] or [scheme://host/...] (and for the same
    without the scheme part) whose scheme and host contain no slash and which
    has no further double slash, the host handed to DNS and WHOIS is [host]:
    scheme and path are stripped, anything else (port, user) is kept. *)
Theorem domain_of_host (scheme host rest : string) :
  has_char slash scheme = false ->
  has_char slash host = false ->
  rest = "" \/ String.prefix "/" rest = true ->
  occurs "//" (host +:+ rest) = false ->
  domain_of (scheme +:+ "//" +:+ host +:+ rest) = host /\
  domain_of (host +:+ rest) = host.
Proof.
  intros Hs Hh Hrest Hno. unfold domain_of, PyStr.split. split.
  - rewrite split_go_scheme by exact Hs.
    rewrite (split_go_absent "//" (host +:+ rest) "") by exact Hno.
    cbn [PyStr.last_piece List.last].
    change ("" +:+ host +:+ rest) with (host +:+ rest).
    apply (first_piece_host host rest ""); assumption.
  - rewrite (split_go_absent "//" (host +:+ rest) "") by exact Hno.
    cbn [PyStr.last_piece List.last].
    change ("" +:+ host +:+ rest) with (host +:+ rest).
    apply (first_piece_host host rest ""); assumption.
Qed.

Lemma domain_of_host_witness :
  domain_of "https://example.com:8080/a/b?x=1" = "example.com:8080" /\
  domain_of "example.com:8080/a/b?x=1" = "example.com:8080".
Proof.
  apply (domain_of_host "https:" "example.com:8080" "/a/b?x=1").
  - reflexivity.
  - reflexivity.
  - right. reflexivity.
  - reflexivity.
Defined.

(** A double slash further on moves the host: the piece after the last one wins. *)
Example domain_of_double_slash_in_path :
  domain_of "https://example.com/a//b/c" = "b".
Proof. reflexivity. Qed.

(** X4: normalizing is idempotent, and a normalized URL always starts with
    http:// or https://. *)
Theorem normalize_url_idempotent (body : string) :
  normalize_url (normalize_url body) = normalize_url body /\
  PyStr.startswith_any (normalize_url body) ["http://"; "https://"] = true.
Proof.
  assert (Hs : PyStr.startswith_any (normalize_url body) ["http://"; "https://"]
               = true).
  { unfold normalize_url.
    destruct (PyStr.startswith_any body ["http://"; "https://"]) eqn:Hb;
      [exact Hb|].
    unfold PyStr.startswith_any, PyStr.startswith. cbn [existsb].
    replace (String.prefix "https://" ("https://" +:+ body)) with true.
    - rewrite orb_true_r. reflexivity.
    - symmetry. apply prefix_app. exists body. reflexivity. }
  split; [|exact Hs].
  unfold normalize_url at 1. rewrite Hs. reflexivity.
Qed.

(** X5: a payload decodes to tag [t] and URL [u] exactly when it is the
    encoding of [t] and [u]; in particular a URL that itself starts with
    "back_" behind a "more_" tag is read as a More payload. *)
Theorem decode_payload_exact (payload : string) (t : Tag) (u : string) :
  decode_payload payload = Some (t, u) <-> payload = encode_payload t u.
Proof.
  split; [|intros ->; apply decode_encode].
  unfold decode_payload, PyStr.startswith.
  destruct (String.prefix "more_" payload) eqn:Hm.
  - apply prefix_app in Hm as [r ->]. intros [= <- <-]. reflexivity.
  - destruct (String.prefix "back_" payload) eqn:Hb; [|discriminate].
    apply prefix_app in Hb as [r ->]. intros [= <- <-]. reflexivity.
Qed.

(** ** The info function, case by case *)

Ltac not_error :=
  try match goal with
  | H : {[ "error" := _ ]} !! "error" = None |- _ =>
      rewrite lookup_singleton_eq in H; discriminate H
  end.

(** Like [fork], but a scrutinee whose value is already known is rewritten. *)
Ltac branch :=
  match goal with
  | |- context [match ?x with _ => _ end] =>
      lazymatch x with
      | context [match _ with _ => _ end] => fail
      | context [events_since] => fail
      | _ =>
          first [ match goal with H : x = _ |- _ => rewrite H end
                | destruct x eqn:? ]
      end
  end; exec.

Ltac branches := repeat branch.

Lemma date_field_None (attr : WhoisEntry -> pyval) :
  date_field None attr = Ok (VStr "N/A").
Proof. reflexivity. Qed.

(** Run the info function with its two date expressions kept folded. *)
Ltac info_cases :=
  unfold get_website_info; exec;
  repeat first [rewrite date_field_None; exec | branch].

Ltac same_event :=
  repeat match goal with
  | H : EvHttpGet _ _ = EvHttpGet _ _ |- _ => injection H as -> ->
  | H : EvDns _ _ = EvDns _ _ |- _ => injection H as ->
  | H : EvWhois _ _ = EvWhois _ _ |- _ => injection H as <-
  end.

(** X6: the info function never raises and changes neither the files nor the
    browsers; what it returns either holds [error] alone or holds the seven
    result keys and no [error]. *)
Theorem get_website_info_shape (W : World) (st : State) (url : string) :
  let out := run (get_website_info url) W st in
  files (snd out) = files st /\
  browsers (snd out) = browsers st /\
  exists info : gmap string pyval,
    fst out = Ok info /\
    ((exists e, info = {[ "error" := VStr e ]}) \/
     info !! "error" = None /\
     Forall (fun key => is_Some (info !! key))
       ["status"; "response_time"; "ip"; "domain"; "registrar";
        "creation_date"; "expiration_date"]).
Proof.
  info_cases; flat; cbn zeta; cbn [fst snd files browsers];
    (split; [reflexivity|]); (split; [reflexivity|]);
    eexists; (split; [reflexivity|]);
    first [ left; eexists; reflexivity
          | right; split; [reflexivity|];
            repeat constructor; eexists; reflexivity ].
Qed.

(** X7: a DNS failure is fatal to the call: the result holds only [error],
    with the message of the DNS exception, and WHOIS is never queried. *)
Theorem dns_failure_is_fatal (W : World) (st : State) (url : string)
    (e : exn) :
  let out := run (get_website_info url) W st in
  let evs := events_since st (snd out) in
  In (EvDns (domain_of url) (Raise e)) evs ->
  fst out = Ok ({[ "error" := VStr e ]} : gmap string pyval) /\
  forall d r, ~ In (EvWhois d r) evs.
Proof.
  info_cases; flat; cbn zeta; cbn [fst snd]; intros Hd; in_inv.
  match goal with H : EvDns _ _ = EvDns _ _ |- _ => injection H as -> end.
  split; [reflexivity|]. intros d r Hw. in_inv.
Qed.

Lemma dns_failure_is_fatal_witness :
  fst (run (get_website_info "https://nowhere.invalid/x")
         (sample_world (Ok (200, 80)) (Raise "[Errno -2] Name or service not known")
            (Ok sample_entry) (Ok tt) full_hd (Ok tt)) boot)
  = Ok ({[ "error" := VStr "[Errno -2] Name or service not known" ]}
          : gmap string pyval).
Proof.
  apply (dns_failure_is_fatal
           (sample_world (Ok (200, 80)) (Raise "[Errno -2] Name or service not known")
              (Ok sample_entry) (Ok tt) full_hd (Ok tt))
           boot "https://nowhere.invalid/x").
  vm_compute. right. left. reflexivity.
Defined.



Lemma date_field_Ok (entry : WhoisEntry) (attr : WhoisEntry -> pyval)
    (v : pyval) :
  date_field (Some entry) attr = Ok v ->
  v = if truthy entry
      then match attr entry with VList (x :: _) _ => x | _ => attr entry end
      else VStr "N/A".
Proof.
  unfold date_field, index0. destruct (truthy entry); [|congruence].
  destruct (attr entry) as [| | | |[|x items] shown] eqn:Hattr; congruence.
Qed.

Lemma date_field_Raise (entry : WhoisEntry) (attr : WhoisEntry -> pyval)
    (e : exn) :
  date_field (Some entry) attr = Raise e ->
  e = IndexError /\ truthy entry = true /\ exists shown, attr entry = VList [] shown.
Proof.
  unfold date_field, index0. destruct (truthy entry); [|congruence].
  destruct (attr entry) as [| | | |[|x items] shown]; try congruence.
  intros [= <-]. eauto.
Qed.

(** X9: when WHOIS answered and the call succeeds, [registrar] is the entry's
    registrar, and each date is the entry's date, or its first element when the
    entry holds a list; an entry that counts as false gives "N/A" throughout. *)
Theorem info_of_whois (W : World) (st : State) (url : string)
    (entry : WhoisEntry) (info : gmap string pyval) :
  let out := run (get_website_info url) W st in
  let evs := events_since st (snd out) in
  let first_of v := match v with VList (x :: _) _ => x | _ => v end in
  let shown_if_true v := if truthy entry then v else VStr "N/A" in
  In (EvWhois (domain_of url) (Ok entry)) evs ->
  fst out = Ok info ->
  info !! "error" = None ->
  info !! "registrar" = Some (shown_if_true (registrar entry)) /\
  info !! "creation_date" = Some (shown_if_true (first_of (creation_date entry))) /\
  info !! "expiration_date" =
    Some (shown_if_true (first_of (expiration_date entry))).
Proof.
  intros out evs first_of shown_if_true. subst out evs.
  info_cases; flat; cbn [fst snd]; intros Hw [= <-] Herr;
    not_error; in_inv; same_event.
  repeat match goal with
  | H : date_field (Some _) _ = Ok _ |- _ => apply date_field_Ok in H; subst
  end.
  repeat split; reflexivity.
Qed.

Lemma info_of_whois_witness :
  let info : gmap string pyval :=
    {[ "status" := VInt 200; "response_time" := VInt 123;
       "ip" := VStr "93.184.216.34"; "domain" := VStr "example.com";
       "registrar" := VStr "Example Registrar";
       "creation_date" := VOther "1995-08-14 04:00:00";
       "expiration_date" := VOther "2030-08-13 04:00:00" ]} in
  fst (run (get_website_info "https://example.com/a") happy_world boot) = Ok info /\
  info !! "registrar" = Some (VStr "Example Registrar") /\
  info !! "creation_date" = Some (VOther "1995-08-14 04:00:00") /\
  info !! "expiration_date" = Some (VOther "2030-08-13 04:00:00").
Proof.
  intros info.
  assert (Hrun : fst (run (get_website_info "https://example.com/a") happy_world boot)
                 = Ok info) by (vm_compute; reflexivity).
  split; [exact Hrun|].
  apply (info_of_whois happy_world boot "https://example.com/a" sample_entry info).
  - vm_compute. right. right. left. reflexivity.
  - exact Hrun.
  - vm_compute. reflexivity.
Defined.

(** X10: when WHOIS answers with an empty list for one of the two dates, taking
    its first element raises inside the outer [try]: the whole result collapses
    to [error] alone, although the probe and DNS had succeeded. *)
Theorem empty_date_list_loses_result (W : World) (st : State) (url : string)
    (entry : WhoisEntry) :
  let out := run (get_website_info url) W st in
  let evs := events_since st (snd out) in
  In (EvWhois (domain_of url) (Ok entry)) evs ->
  truthy entry = true ->
  (exists shown, creation_date entry = VList [] shown) \/
  (exists shown, expiration_date entry = VList [] shown) ->
  fst out = Ok ({[ "error" := VStr "list index out of range" ]} : gmap string pyval).
Proof.
  info_cases; flat; cbn zeta; cbn [fst snd]; intros Hw Ht Hd; in_inv; same_event.
  all: repeat match goal with
       | H : date_field (Some _) _ = Raise _ |- _ =>
           apply date_field_Raise in H as (-> & _ & _)
       end.
  all: try reflexivity.
  all: exfalso.
  all: repeat match goal with
       | H : date_field (Some _) _ = Ok _ |- _ =>
           unfold date_field in H; rewrite Ht in H
       end.
  all: match goal with
       | Hs : _ = VList [] _, H : context [index0] |- _ =>
           rewrite Hs in H; discriminate H
       end.
Qed.

Lemma empty_date_list_loses_result_witness :
  fst (run (get_website_info "https://example.com")
         (sample_world (Ok (200, 80)) (Ok "93.184.216.34")
            (Ok (mkWhois true (VStr "R") (VList [] "[]") VNone))
            (Ok tt) full_hd (Ok tt)) boot)
  = Ok ({[ "error" := VStr "list index out of range" ]} : gmap string pyval).
Proof.
  apply (empty_date_list_loses_result
           (sample_world (Ok (200, 80)) (Ok "93.184.216.34")
              (Ok (mkWhois true (VStr "R") (VList [] "[]") VNone))
              (Ok tt) full_hd (Ok tt))
           boot "https://example.com"
           (mkWhois true (VStr "R") (VList [] "[]") VNone)).
  - vm_compute. right. right. left. reflexivity.
  - reflexivity.
  - left. exists "[]". reflexivity.
Defined.

(** ** The capturer, case by case *)

Ltac shot_cases :=
  unfold take_screenshot, resize_if_too_large; exec; branches.

(** Show that an event is in an explicit trace. *)
Ltac find_in :=
  repeat first [ left; reflexivity | right | apply in_or_app; right ].

Ltac units :=
  repeat match goal with u : unit |- _ => destruct u end.

(** X11: a path returned by the capturer is always "screenshot.png", the file
    exists, the browser has been quit, and as many browsers run as before. *)
Theorem returned_screenshot_exists (W : World) (st : State) (url p : string) :
  let out := run (take_screenshot url) W st in
  fst out = Ok (Some p) ->
  p = "screenshot.png" /\
  is_Some (files (snd out) !! p) /\
  In (EvQuit (Ok tt)) (events_since st (snd out)) /\
  browsers (snd out) = browsers st.
Proof.
  shot_cases; flat; cbn zeta; cbn [fst snd files browsers]; intros [= <-];
    units; rewrite ?lookup_insert_eq;
    (split; [reflexivity|]); (split; [eauto|]);
    (split; [cbn [In]; auto 10 | reflexivity]).
Qed.

Lemma returned_screenshot_exists_witness :
  is_Some (files (snd (run (take_screenshot "https://example.com") happy_world boot))
             !! "screenshot.png").
Proof.
  apply (returned_screenshot_exists happy_world boot "https://example.com"
           "screenshot.png").
  vm_compute. reflexivity.
Defined.

(** X12: when the browser cannot be launched, the capturer makes no other call
    and changes nothing. *)
Theorem launch_failure_stops_capturer (W : World) (st : State) (url : string)
    (e : exn) :
  w_launch W (trace st) = Raise e ->
  run (take_screenshot url) W st =
    (Ok None,
     mkState (trace st ++ [EvLaunch (Raise e)]) (files st) (browsers st)).
Proof.
  intros Hl. unfold take_screenshot. exec. rewrite Hl. reflexivity.
Qed.

Lemma launch_failure_stops_capturer_witness :
  run (take_screenshot "https://example.com") launch_fails_world boot =
    (Ok None, mkState [EvLaunch (Raise "SessionNotCreatedException")] ∅ 0).
Proof.
  apply (launch_failure_stops_capturer launch_fails_world boot
           "https://example.com" "SessionNotCreatedException").
  reflexivity.
Defined.

(** X13: when the capture was written and the capturer then returns no path
    (quit, open, resize or save raised), the file "screenshot.png" stays on
    disk: it still holds the capture as taken, unresized, unless it was the
    save that raised after opening its target, which leaves it cut short. *)
Theorem failed_capture_stays_on_disk (W : World) (st : State) (url p : string)
    (img : Image) :
  let out := run (take_screenshot url) W st in
  let evs := events_since st (snd out) in
  In (EvSaveScreenshot p (Ok (Some img))) evs ->
  fst out = Ok None ->
  files (snd out) !! "screenshot.png" = Some (Picture img) \/
  files (snd out) !! "screenshot.png" = Some Damaged /\
  exists e, In (EvImageSave "screenshot.png" (Raise e)) evs.
Proof.
  shot_cases; flat; cbn zeta; cbn [fst snd files]; intros Hw Hr;
    try discriminate Hr; in_inv.
  all: match goal with
       | H : EvSaveScreenshot _ _ = EvSaveScreenshot _ _ |- _ =>
           injection H as <- <-
       end.
  all: rewrite ?lookup_insert_eq.
  all: first [ left; reflexivity
             | right; split; [reflexivity | eexists; find_in] ].
Qed.

Lemma failed_capture_stays_on_disk_witness :
  files (snd (run (take_screenshot "https://example.com") resize_fails_world boot))
    !! "screenshot.png" = Some (Picture full_hd).
Proof.
  destruct (failed_capture_stays_on_disk resize_fails_world boot
              "https://example.com" "screenshot.png" full_hd) as [H | [H _]].
  - vm_compute. do 3 right. left. reflexivity.
  - vm_compute. reflexivity.
  - exact H.
  - vm_compute in H. discriminate H.
Defined.

(** The save case: the file is there, but no longer a picture. *)
Example failed_save_cuts_file_short :
  files (snd (run (take_screenshot "https://example.com") save_fails_world boot))
    !! "screenshot.png" = Some Damaged.
Proof. vm_compute. reflexivity. Qed.

(** X14: the capturer only ever writes "screenshot.png": every other file is
    as before, and a file that was there is never removed. *)
Theorem capturer_writes_one_file (W : World) (st : State) (url : string) :
  let out := run (take_screenshot url) W st in
  (forall p, p <> "screenshot.png" -> files (snd out) !! p = files st !! p) /\
  (forall p, is_Some (files st !! p) -> is_Some (files (snd out) !! p)).
Proof.
  shot_cases; flat; cbn zeta; cbn [fst snd files]; unfold screenshot_path;
    split; intros p Hp.
  all: try (rewrite ?lookup_insert_ne by congruence; reflexivity).
  all: destruct (decide (p = "screenshot.png")) as [-> | Hne];
    rewrite ?lookup_insert_eq, ?lookup_insert_ne by congruence; eauto.
Qed.
(** ** The text-message handler, case by case *)

(** The capturer's run with its result tied to the outcome of its calls. *)
Lemma take_screenshot_detail (W : World) (st : State) (url : string) :
  exists o rest fs b,
    run (take_screenshot url) W st =
      (Ok o, mkState (trace st ++ EvLaunch (w_launch W (trace st)) :: rest) fs b) /\
    o = (if existsb failed (EvLaunch (w_launch W (trace st)) :: rest)
         then None else Some screenshot_path) /\
    Forall (fun ev => origin ev = Capturer) rest.
Proof.
  shot_cases; flat; do 4 eexists; (split; [reflexivity|]);
    (split; [reflexivity|]); repeat constructor.
Qed.

Ltac enter_handle_url Hin :=
  cbn zeta;
  unfold handle_url, check_auth, message_text, message_reply_text, text_update;
  cbn [effective_user message text]; rewrite (allowed_passes _ Hin);
  exec.

(** X15: for an authorized text message, the handler raises only if the send
    of the processing note raised, or if the edit that reports an error raised;
    every other failure ends in a normal return. *)
Theorem handle_url_raises_only_from_transport (W : World) (st : State)
    (uid : Z) (body : string) (e : exn) :
  In uid ALLOWED_USERS ->
  let out := run (handle_url (text_update uid body)) W st in
  let evs := events_since st (snd out) in
  fst out = Raise e ->
  In (EvReplyText processing_text None (Raise e)) evs \/
  exists report, In (EvEditText report (Raise e)) evs.
Proof.
  intros Hin. enter_handle_url Hin.
  repeat first [sub_runs | fork]; flat; cbn [fst snd]; intros [= <-].
  all: first [ left; left; reflexivity | right; eexists; find_in ].
Qed.

Lemma handle_url_raises_only_from_transport_witness :
  let evs :=
    events_since boot
      (snd (run (handle_url (text_update allowed_id "example.com"))
              transport_down_world boot)) in
  In (EvReplyText processing_text None (Raise "Message to edit not found")) evs \/
  exists report, In (EvEditText report (Raise "Message to edit not found")) evs.
Proof.
  apply (handle_url_raises_only_from_transport transport_down_world boot
           allowed_id "example.com" "Message to edit not found").
  - left. reflexivity.
  - vm_compute. reflexivity.
Defined.

(** The sub-runs again, keeping what the info function returned. *)
Ltac sub_runs_keep :=
  match goal with
  | |- context [get_website_info ?u ?W ?s] =>
      let info := fresh "info" in
      let lookups := fresh "lookups" in
      destruct (get_website_info_total W s u)
        as (info & lookups & Hinfo & ? & ?);
      unfold run in Hinfo; rewrite Hinfo; exec
  | |- context [take_screenshot ?u ?W ?s] =>
      let o := fresh "shot" in
      let steps := fresh "steps" in
      let Hrun := fresh "Hshot" in
      let Ho := fresh "Hres" in
      destruct (take_screenshot_detail W s u)
        as (o & steps & ? & ? & Hrun & Ho & ?);
      unfold run in Hrun; rewrite Hrun; clear Hrun;
      match type of Ho with
      | _ = (if ?c then _ else _) => destruct c eqn:Hany
      end;
      subst o; unfold screenshot_path; exec
  end.

(** X16: every photo the handler sends is "screenshot.png", captioned with the
    Summary view of what the info function returned for the normalized URL in
    this very run, with one More button for that URL; it is sent after the
    processing note was deleted and the file opened. *)
Theorem photo_reply_shape (W : World) (st : State) (uid : Z)
    (body p caption : string) (m : Markup) (r : Res unit) :
  In uid ALLOWED_USERS ->
  let url := normalize_url body in
  let out := run (handle_url (text_update uid body)) W st in
  let evs := events_since st (snd out) in
  let st1 :=
    mkState (trace st ++ [EvReplyText processing_text None (Ok tt)])
            (files st) (browsers st) in
  In (EvReplyPhoto p caption m r) evs ->
  p = "screenshot.png" /\
  m = [[mkButton "More Info ℹ️" ("more_" +:+ url)]] /\
  (exists info st2,
     run (get_website_info url) W st1 = (Ok info, st2) /\
     caption = summary_text url info) /\
  In (EvDeleteMessage (Ok tt)) evs /\
  In (EvOpenFile p (Ok tt)) evs.
Proof.
  intros Hin. enter_handle_url Hin.
  repeat first [sub_runs_keep | fork]; flat; cbn [fst snd]; intros Hp; in_inv.
  all: match goal with
       | H : EvReplyPhoto _ _ _ _ = EvReplyPhoto _ _ _ _ |- _ =>
           injection H as <- <- <- <-
       end.
  all: units.
  all: split; [reflexivity|]; split; [reflexivity|].
  all: split; [do 2 eexists; split; [exact Hinfo | reflexivity] |].
  all: split; find_in.
Qed.

Lemma photo_reply_shape_witness :
  let evs :=
    events_since boot
      (snd (run (handle_url (text_update allowed_id "example.com"))
              happy_world boot)) in
  In (EvDeleteMessage (Ok tt)) evs /\
  In (EvOpenFile "screenshot.png" (Ok tt)) evs.
Proof.
  destruct (photo_reply_shape happy_world boot allowed_id "example.com"
              "screenshot.png"
              (summary_text "https://example.com"
                 {[ "status" := VInt 200; "response_time" := VInt 123 ]})
              [[more_button "https://example.com"]] (Ok tt))
    as (_ & _ & _ & Hdel & Hopen).
  - left. reflexivity.
  - vm_compute. do 14 right. left. reflexivity.
  - split; [exact Hdel | exact Hopen].
Defined.

(** Where in an explicit trace an unknown event sits. *)
Ltac locate H :=
  repeat match type of H with
  | In _ (_ :: _) => destruct H as [H | H]; [subst |]
  | In _ (_ ++ _) => apply in_app_or in H; destruct H as [H | H]
  | In _ [] => destruct H
  end.

Ltac no_storage :=
  repeat first
    [ apply Forall_nil_2
    | apply Forall_cons_2; [discriminate |]
    | apply Forall_app_2
    | match goal with
      | F : Forall (fun ev => origin ev = _) ?l |- Forall _ ?l =>
          apply (List.Forall_impl _ (P := fun ev => origin ev = _)) with (2 := F);
          intros ? ->; discriminate
      end ].

(** X17: when a call of the capturer raised and the processing note could be
    deleted, the handler answers with a text message: the Summary view of what
    the info function returned in this very run, followed by the note that no
    screenshot could be generated, with the More button; it sends no photo and
    touches no file. *)
Theorem text_reply_when_capture_fails (W : World) (st : State) (uid : Z)
    (body : string) (ev : Event) :
  In uid ALLOWED_USERS ->
  let url := normalize_url body in
  let out := run (handle_url (text_update uid body)) W st in
  let evs := events_since st (snd out) in
  let st1 :=
    mkState (trace st ++ [EvReplyText processing_text None (Ok tt)])
            (files st) (browsers st) in
  In ev evs -> origin ev = Capturer -> failed ev = true ->
  In (EvDeleteMessage (Ok tt)) evs ->
  (exists info st2 r,
     run (get_website_info url) W st1 = (Ok info, st2) /\
     In (EvReplyText (summary_text url info +:+ no_screenshot_note)
           (Some [[more_button url]]) r) evs) /\
  Forall (fun ev' => origin ev' <> Storage) evs /\
  (forall p c m r, ~ In (EvReplyPhoto p c m r) evs).
Proof.
  intros Hin. enter_handle_url Hin.
  repeat first [sub_runs_keep | fork]; flat; cbn [fst snd];
    intros Hev Hor Hf Hdel.
  all: try (in_inv; fail).
  all: try (exfalso; cbn [existsb trace] in Hany;
            apply orb_false_iff in Hany as [Hl Hs];
            repeat rewrite <- app_assoc in Hl; cbn [app] in Hl;
            locate Hev; cbn in Hor; try discriminate Hor; try congruence;
            first
              [ match goal with
                | F : Forall (fun ev => origin ev = Lookup) ?l, H : In _ ?l |- _ =>
                    apply (proj1 (List.Forall_forall _ _) F) in H; congruence
                end
              | assert (existsb failed steps = true)
                  by (apply existsb_exists; eauto);
                congruence ]).
  all: units.
  all: split; [do 3 eexists; split; [exact Hinfo | find_in] |].
  all: split; [no_storage | intros p c m r Hp; in_inv].
Qed.

Lemma text_reply_when_capture_fails_witness :
  let evs :=
    events_since boot
      (snd (run (handle_url (text_update allowed_id "example.com"))
              launch_fails_world boot)) in
  exists info st2 r,
    run (get_website_info (normalize_url "example.com")) launch_fails_world
        (mkState [EvReplyText processing_text None (Ok tt)] ∅ 0) = (Ok info, st2) /\
    In (EvReplyText
          (summary_text (normalize_url "example.com") info +:+ no_screenshot_note)
          (Some [[more_button (normalize_url "example.com")]]) r) evs.
Proof.
  destruct (text_reply_when_capture_fails launch_fails_world boot allowed_id
              "example.com" (EvLaunch (Raise "SessionNotCreatedException")))
    as (Hreply & _ & _).
  - left. reflexivity.
  - vm_compute. do 4 right. left. reflexivity.
  - reflexivity.
  - reflexivity.
  - vm_compute. do 5 right. left. reflexivity.
  - exact Hreply.
Defined.

(** X18: when the processing note cannot be deleted, the result is lost: the
    handler sends neither the photo nor the text reply, and edits the note to
    "Error checking website: " followed by the message of that exception. *)
Theorem delete_failure_reports_error (W : World) (st : State) (uid : Z)
    (body : string) (e : exn) :
  In uid ALLOWED_USERS ->
  let out := run (handle_url (text_update uid body)) W st in
  let evs := events_since st (snd out) in
  In (EvDeleteMessage (Raise e)) evs ->
  In (EvEditText ("Error checking website: " +:+ e) (fst out)) evs /\
  (forall b m r, In (EvReplyText b m r) evs -> b = processing_text /\ m = None) /\
  (forall p c m r, ~ In (EvReplyPhoto p c m r) evs).
Proof.
  intros Hin. enter_handle_url Hin.
  repeat first [sub_runs | fork]; flat; cbn [fst snd]; intros Hdel; in_inv.
  all: match goal with
       | H : EvDeleteMessage _ = EvDeleteMessage _ |- _ => injection H as <-
       end.
  all: units.
  all: split; [find_in |].
  all: split; [intros b m r Hr; in_inv | intros p c m r Hp; in_inv].
  all: match goal with
       | H : EvReplyText _ _ _ = EvReplyText _ _ _ |- _ => injection H as <- <- _
       end.
  all: split; reflexivity.
Qed.

Lemma delete_failure_reports_error_witness :
  let out :=
    run (handle_url (text_update allowed_id "example.com")) delete_fails_world boot in
  In (EvEditText "Error checking website: Message can't be deleted" (fst out))
     (events_since boot (snd out)).
Proof.
  destruct (delete_failure_reports_error delete_fails_world boot allowed_id
              "example.com" "Message can't be deleted") as (Hedit & _ & _).
  - left. reflexivity.
  - vm_compute. do 12 right. left. reflexivity.
  - exact Hedit.
Defined.

(** ** The button handler, case by case *)

(** X19: an authorized press of a Back button for [url], once acknowledged,
    re-runs the whole info function on [url] (probe, DNS and WHOIS) and edits
    the caption to the Summary view with a More button for [url]; response time
    and status show the value found in the info dictionary and "N/A" when the
    dictionary has no such key. *)
Theorem back_press_renders_summary_view (W : World) (st : State) (uid : Z)
    (url : string) :
  In uid ALLOWED_USERS ->
  w_answer W (trace st) = Ok tt ->
  let st1 := mkState (trace st ++ [EvAnswer (Ok tt)]) (files st) (browsers st) in
  exists (info : gmap string pyval) (st2 : State) (r : Res unit),
    run (get_website_info url) W st1 = (Ok info, st2) /\
    run (button_callback (press_update uid ("back_" +:+ url))) W st =
      (r, mkState
            (trace st2 ++
             [EvEditCaption (summary_text url info)
                [[mkButton "More Info ℹ️" ("more_" +:+ url)]] r])
            (files st2) (browsers st2)) /\
    let field key :=
      match info !! key with Some v => py_str v | None => "N/A" end in
    summary_text url info =
      "🌐 Website: " +:+ url +:+ nl +:+
      "⏱ Response Time: " +:+ field "response_time" +:+ "ms" +:+ nl +:+
      "📊 Status: " +:+ field "status" +:+ nl.
Proof.
  intros Hin Hans st1.
  destruct (get_website_info_total W st1 url) as (info & rest & Hrun & _ & _).
  eexists info, _, _. split; [exact Hrun|]. split.
  - unfold button_callback, check_auth, press_update.
    cbn [effective_user message callback_query data].
    rewrite (allowed_passes _ Hin).
    change ("back_" +:+ url) with (encode_payload Back url).
    rewrite decode_encode.
    exec. rewrite Hans. fold st1.
    unfold run in Hrun. rewrite Hrun. exec. reflexivity.
  - unfold summary_text, get_or_na.
    destruct (info !! "response_time"), (info !! "status"); reflexivity.
Qed.

Lemma back_press_renders_summary_view_witness :
  exists (info : gmap string pyval) (st2 : State) (r : Res unit),
    run (button_callback (press_update allowed_id "back_https://example.com"))
        happy_world boot =
      (r, mkState
            (trace st2 ++
             [EvEditCaption (summary_text "https://example.com" info)
                [[more_button "https://example.com"]] r])
            (files st2) (browsers st2)).
Proof.
  destruct (back_press_renders_summary_view happy_world boot allowed_id
              "https://example.com") as (info & st2 & r & _ & Hrun & _).
  - left. reflexivity.
  - reflexivity.
  - exists info, st2, r. exact Hrun.
Defined.

(** C9 (as the code has it): when WHOIS answers with an entry whose registrar,
    creation date and expiration date are all [None], an authorized More press
    edits the caption to a Detail view that shows the resolved address and
    "None", not "N/A", for the three values that are absent: the keys are in
    the dictionary, so the default of [info.get] does not apply. *)
Theorem absent_whois_values_shown_as_None (W : World) (st : State) (uid : Z)
    (url : string) (entry : WhoisEntry) :
  In uid ALLOWED_USERS ->
  let out :=
    run (button_callback (press_update uid (encode_payload More url))) W st in
  let evs := events_since st (snd out) in
  In (EvWhois (domain_of url) (Ok entry)) evs ->
  truthy entry = true ->
  registrar entry = VNone ->
  creation_date entry = VNone ->
  expiration_date entry = VNone ->
  exists ip r,
    In (EvDns (domain_of url) (Ok ip)) evs /\
    In (EvEditCaption
          ("🌐 Detailed Information for " +:+ url +:+ nl +:+ nl +:+
           "🔍 IP Address: " +:+ ip +:+ nl +:+
           "🏢 Registrar: None" +:+ nl +:+
           "📅 Created: None" +:+ nl +:+
           "⌛ Expires: None" +:+ nl)
          [[back_button url]] r) evs.
Proof.
  intros Hin. cbn zeta.
  unfold button_callback, check_auth, press_update.
  cbn [effective_user message callback_query data].
  rewrite (allowed_passes _ Hin), decode_encode.
  info_cases; flat; cbn [fst snd]; intros Hw Ht Hr Hc He; in_inv; same_event.
  all: repeat match goal with
       | H : date_field (Some _) _ = Raise _ |- _ =>
           apply date_field_Raise in H as (_ & _ & [? ?]); congruence
       | H : date_field (Some _) _ = Ok _ |- _ =>
           apply date_field_Ok in H; rewrite Ht, ?Hc, ?He in H; subst
       end.
  all: do 2 eexists; split; [find_in |].
  all: unfold registrar_field; rewrite Ht, Hr.
  all: find_in.
Qed.

Lemma absent_whois_values_shown_as_None_witness :
  let evs :=
    events_since boot
      (snd (run (button_callback
                   (press_update allowed_id "more_https://example.com"))
              blank_whois_world boot)) in
  exists ip r,
    In (EvDns "example.com" (Ok ip)) evs /\
    In (EvEditCaption
          ("🌐 Detailed Information for https://example.com" +:+ nl +:+ nl +:+
           "🔍 IP Address: " +:+ ip +:+ nl +:+
           "🏢 Registrar: None" +:+ nl +:+
           "📅 Created: None" +:+ nl +:+
           "⌛ Expires: None" +:+ nl)
          [[back_button "https://example.com"]] r) evs.
Proof.
  apply (absent_whois_values_shown_as_None blank_whois_world boot allowed_id
           "https://example.com" (mkWhois true VNone VNone VNone)).
  - left. reflexivity.
  - vm_compute. do 3 right. left. reflexivity.
  - reflexivity.
  - reflexivity.
  - reflexivity.
  - reflexivity.
Defined.

(** X20: an authorized press whose payload starts with neither "more_" nor
    "back_" is acknowledged and otherwise ignored: the acknowledgement is the
    only call, and its outcome is the handler's. *)
Theorem unknown_payload_is_ignored (W : World) (st : State) (uid : Z)
    (payload : string) :
  In uid ALLOWED_USERS ->
  PyStr.startswith payload "more_" = false ->
  PyStr.startswith payload "back_" = false ->
  run (button_callback (press_update uid payload)) W st =
    (w_answer W (trace st),
     mkState (trace st ++ [EvAnswer (w_answer W (trace st))])
             (files st) (browsers st)).
Proof.
  intros Hin Hm Hb.
  unfold button_callback, check_auth, press_update, decode_payload.
  cbn [effective_user message callback_query data].
  rewrite (allowed_passes _ Hin), Hm, Hb. exec.
  destruct (w_answer W (trace st)) as [[]|e]; reflexivity.
Qed.

Lemma unknown_payload_is_ignored_witness :
  run (button_callback (press_update allowed_id "less_https://example.com"))
      happy_world boot =
    (Ok tt, mkState [EvAnswer (Ok tt)] ∅ 0).
Proof.
  apply (unknown_payload_is_ignored happy_world boot allowed_id
           "less_https://example.com").
  - left. reflexivity.
  - reflexivity.
  - reflexivity.
Defined.

(** X21: whatever the update and whatever the collaborators answer, the button
    handler never starts the capturer and never touches a file: its calls are
    the transport's, the prober's and the lookup's, and files and browsers are
    as before. *)
Theorem button_callback_never_captures (W : World) (st : State)
    (update : Update) :
  let out := run (button_callback update) W st in
  files (snd out) = files st /\
  browsers (snd out) = browsers st /\
  Forall (fun ev => origin ev <> Capturer /\ origin ev <> Storage)
         (events_since st (snd out)).
Proof.
  destruct update as [[uid|] [m|] [q|]];
    unfold button_callback, check_auth, message_reply_text;
    cbn [effective_user message callback_query data];
    try destruct (bool_decide (uid ∈ ALLOWED_USERS));
    try destruct (decode_payload (data q)) as [[[] url]|];
    exec; repeat first [sub_runs | fork]; flat; cbn zeta;
    cbn [fst snd files browsers];
    (split; [reflexivity|]); (split; [reflexivity|]);
    unfold events_since; rewrite ?drop_all.
  all: repeat first
         [ apply Forall_nil_2
         | apply Forall_cons_2; [split; discriminate |]
         | apply Forall_app_2
         | match goal with
           | F : Forall (fun ev => origin ev = Lookup) ?l |- Forall _ ?l =>
               apply (List.Forall_impl _ (P := fun ev => origin ev = Lookup))
                 with (2 := F);
               intros ? ->; split; discriminate
           end ].
Qed.

(** X22: for an update that carries a sender and a message, the start handler
    makes exactly one call: it sends the welcome text to an allowed sender and
    the rejection text to any other, and returns what that send returned. *)
Theorem start_sends_one_message (W : World) (st : State) (uid : Z)
    (m : Message) (q : option CallbackQuery) :
  let body :=
    if bool_decide (uid ∈ ALLOWED_USERS) then welcome_text else rejection_text in
  let r := w_reply_text W (trace st) body None in
  run (start (mkUpdate (Some uid) (Some m) q)) W st =
    (r, mkState (trace st ++ [EvReplyText body None r]) (files st) (browsers st)).
Proof.
  cbn zeta. unfold start, check_auth, message_reply_text.
  cbn [effective_user message].
  destruct (bool_decide (uid ∈ ALLOWED_USERS)); exec;
    destruct (w_reply_text W (trace st) _ None) as [[]|e]; reflexivity.
Qed.
